(** * FastAPI CRUD boilerplate: the record-access layer and the exception translator

    A shallow embedding of
      - [app/utils/helper_functions.py]  ([handle_exceptions]),
      - [app/schemas/base_schemas.py]    (the response and error schemas),
      - [app/models/base_model.py]       ([BaseModel] and its class methods),
      - [app/models/example_model.py]    (the [example] table),
      - [app/routes/base_router.py]      ([BaseRouter] and its six endpoints),
    followed by the properties of the specification that concern them. *)

From Stdlib Require Import ZArith List String Ascii Bool Lia.
From Stdlib Require Import Permutation Sorted OrderedTypeEx.
Import ListNotations.

Open Scope string_scope.
Open Scope Z_scope.

(* ================================================================== *)
(** * Python exceptions *)
(* ================================================================== *)

(** The classes that occur in a [raise] statement or an [except] clause of
    the sources.  [NotFoundErrorResponse] and [ErrorResponse] are declared
    in [base_schemas.py] as subclasses of pydantic's [BaseModel]; every
    other class below is an exception class. *)
Inductive PyClass : Type :=
  | HTTPException
  | SQLAlchemyError
  | NotFoundErrorResponse
  | ErrorResponse
  | ValueError
  | TypeError
  | AttributeError
  | ZeroDivisionError
  | Exception.

(** [issubclass(cls, BaseException)].  A pydantic model is a plain object. *)
Definition derives_from_BaseException (cls : PyClass) : bool :=
  match cls with
  | NotFoundErrorResponse | ErrorResponse => false
  | _ => true
  end.

(** An exception in flight.  [HTTPExc] carries the three fields the
    translator sets on a [fastapi.HTTPException]; the others carry the text
    [str(e)] yields. *)
Inductive PyExc : Type :=
  | HTTPExc (status_code : Z) (detail : string) (headers : list (string * string))
  | SQLAlchemyExc (msg : string)
  | ValueExc (msg : string)
  | TypeExc (msg : string)
  | AttributeExc (msg : string)
  | ZeroDivisionExc (msg : string)
  | OtherExc (msg : string).

Definition class_of (e : PyExc) : PyClass :=
  match e with
  | HTTPExc _ _ _ => HTTPException
  | SQLAlchemyExc _ => SQLAlchemyError
  | ValueExc _ => ValueError
  | TypeExc _ => TypeError
  | AttributeExc _ => AttributeError
  | ZeroDivisionExc _ => ZeroDivisionError
  | OtherExc _ => Exception
  end.

Definition PyClass_eqb (a b : PyClass) : bool :=
  match a, b with
  | HTTPException, HTTPException
  | SQLAlchemyError, SQLAlchemyError
  | NotFoundErrorResponse, NotFoundErrorResponse
  | ErrorResponse, ErrorResponse
  | ValueError, ValueError
  | TypeError, TypeError
  | AttributeError, AttributeError
  | ZeroDivisionError, ZeroDivisionError
  | Exception, Exception => true
  | _, _ => false
  end.

(** [issubclass sub sup] on the classes above: every exception class derives
    from [Exception]; the two pydantic models derive from none of them. *)
Definition issubclass (sub sup : PyClass) : bool :=
  PyClass_eqb sub sup
  || (derives_from_BaseException sub && PyClass_eqb sup Exception).

Definition isinstance (e : PyExc) (cls : PyClass) : bool :=
  issubclass (class_of e) cls.

(** [str(e)], and [e.message] as the handlers of the translator read it. *)
Definition str (e : PyExc) : string :=
  match e with
  | HTTPExc _ detail _ => detail
  | SQLAlchemyExc m | ValueExc m | TypeExc m | AttributeExc m
  | ZeroDivisionExc m | OtherExc m => m
  end.

Definition message_of (e : PyExc) : string := str e.

(** What the operand of a [raise] statement can be in the sources: an
    exception, or an instance of one of the two pydantic schemas. *)
Inductive PyObject : Type :=
  | ExcObject (e : PyExc)
  | NotFoundErrorResponse_ (message : string)
  | ErrorResponse_ (message : string).

(** The outcome of running a piece of Python: a value, or an exception. *)
Inductive result (A : Type) : Type :=
  | Return (a : A)
  | Raise (e : PyExc).
Arguments Return {A} a.
Arguments Raise {A} e.

Definition bind {A B : Type} (m : result A) (k : A -> result B) : result B :=
  match m with
  | Return a => k a
  | Raise e => Raise e
  end.

Notation "x <- m ;; k" := (bind m (fun x => k))
  (at level 61, m at next level, right associativity).

(** The [raise] statement: an operand that does not derive from
    [BaseException] makes the statement itself raise [TypeError]. *)
Definition raise {A : Type} (o : PyObject) : result A :=
  match o with
  | ExcObject e => Raise e
  | NotFoundErrorResponse_ _ | ErrorResponse_ _ =>
      Raise (TypeExc "exceptions must derive from BaseException")
  end.

(** One [except cls as e: raise ...] clause: the class it names and the
    exception its body raises. *)
Record except_clause : Type := mk_except {
  clause_class : PyClass;
  clause_body : PyExc -> PyExc
}.

(** The [except] clauses of a [try] statement are tried in order.  Testing
    the exception against a clause whose class does not derive from
    [BaseException] raises [TypeError]; that exception leaves the statement,
    the clauses after it are not consulted. *)
Fixpoint try_except (clauses : list except_clause) (e : PyExc) : PyExc :=
  match clauses with
  | [] => e
  | c :: rest =>
      if derives_from_BaseException (clause_class c) then
        if isinstance e (clause_class c) then clause_body c e
        else try_except rest e
      else
        TypeExc "catching classes that do not inherit from BaseException is not allowed"
  end.

(* ================================================================== *)
(** * [app/utils/helper_functions.py] *)
(* ================================================================== *)

Definition HTTP_400_BAD_REQUEST : Z := 400.
Definition HTTP_404_NOT_FOUND : Z := 404.
Definition HTTP_500_INTERNAL_SERVER_ERROR : Z := 500.
Definition HTTP_200_OK : Z := 200.
Definition HTTP_201_CREATED : Z := 201.

(** The six [except] clauses of [wrapper], in source order. *)
Definition handle_exceptions_clauses : list except_clause :=
  [ mk_except HTTPException (fun e => e);
    mk_except SQLAlchemyError (fun e =>
      HTTPExc 420
        ("Database connection error occurred: " ++ str e)
        [("X-Error", "Database Error")]);
    mk_except NotFoundErrorResponse (fun e =>
      HTTPExc HTTP_404_NOT_FOUND
        ("Resource not found: " ++ message_of e)
        [("X-Error", "Resource Not Found")]);
    mk_except ErrorResponse (fun e =>
      HTTPExc HTTP_500_INTERNAL_SERVER_ERROR
        ("Internal server error occurred: " ++ message_of e)
        [("X-Error", "Bad Request")]);
    mk_except ValueError (fun e =>
      HTTPExc HTTP_400_BAD_REQUEST
        ("Bad request error occurred: " ++ str e)
        [("X-Error", "Bad Request")]);
    mk_except Exception (fun e =>
      HTTPExc HTTP_500_INTERNAL_SERVER_ERROR
        ("Internal server error occurred: " ++ str e)
        [("X-Error", "Internal Server Error")]) ].

(** [handle_exceptions(func)]: the wrapper returns what [func] returns and
    sends what it raises through the clauses. *)
Definition handle_exceptions {A : Type} (func : result A) : result A :=
  match func with
  | Return a => Return a
  | Raise e => Raise (try_except handle_exceptions_clauses e)
  end.

(** What the framework sends for the outcome of a wrapped handler declared
    with [status_code=success]: the declared code on a return, the code of
    an [HTTPException] that leaves the handler, and 500 for any other
    exception. *)
Definition response_status {A : Type} (success : Z) (r : result A) : Z :=
  match r with
  | Return _ => success
  | Raise (HTTPExc code _ _) => code
  | Raise _ => 500
  end.

(** The [detail] the response carries, when an [HTTPException] left the
    handler. *)
Definition response_detail {A : Type} (r : result A) : option string :=
  match r with
  | Raise (HTTPExc _ detail _) => Some detail
  | _ => None
  end.

(* ================================================================== *)
(** * [app/models/example_model.py]: the [example] table *)
(* ================================================================== *)

(** A row of [ExampleModel]: the three columns of [BaseModel] followed by
    the three of the entity.  A [DateTime] is kept in its ISO-8601 text
    form, on which the order of strings is the order of time. *)
Record Row : Type := mk_row {
  id : string;
  created_at : string;
  updated_at : string;
  name : string;
  value : Z;
  description : string
}.

Inductive Column : Type :=
  | id_column
  | created_at_column
  | updated_at_column
  | name_column
  | value_column
  | description_column.

Inductive ColumnType : Type := String_type | Integer_type | DateTime_type.

Definition column_type (c : Column) : ColumnType :=
  match c with
  | id_column | name_column | description_column => String_type
  | value_column => Integer_type
  | created_at_column | updated_at_column => DateTime_type
  end.

Definition column_name (c : Column) : string :=
  match c with
  | id_column => "id"
  | created_at_column => "created_at"
  | updated_at_column => "updated_at"
  | name_column => "name"
  | value_column => "value"
  | description_column => "description"
  end.

Definition columns : list Column :=
  [id_column; created_at_column; updated_at_column;
   name_column; value_column; description_column].

Inductive Value : Type :=
  | VString (s : string)
  | VInteger (z : Z)
  | VDateTime (s : string).

Definition column_value (c : Column) (r : Row) : Value :=
  match c with
  | id_column => VString (id r)
  | created_at_column => VDateTime (created_at r)
  | updated_at_column => VDateTime (updated_at r)
  | name_column => VString (name r)
  | value_column => VInteger (value r)
  | description_column => VString (description r)
  end.

Definition Dict : Type := list (string * Value).

(** [to_dict]: one entry per column of the table. *)
Definition to_dict (self : Row) : Dict :=
  map (fun column => (column_name column, column_value column self)) columns.

Definition model_name : string := "ExampleModel".

(** [getattr(cls, attr)] followed by the use the query makes of it
    ([.asc()], [.desc()], [.ilike(...)]): only the mapped columns have these
    methods, any other name ends in [AttributeError]. *)
Definition getattr_column (attr : string) : result Column :=
  match find (fun c => column_name c =? attr)%string columns with
  | Some c => Return c
  | None =>
      Raise (AttributeExc
        ("type object '" ++ model_name ++ "' has no attribute '" ++ attr ++ "'"))
  end.

(** The order the engine sorts a column by: integers by value, text and
    timestamps as strings. *)
Definition Value_compare (a b : Value) : comparison :=
  match a, b with
  | VInteger x, VInteger y => Z.compare x y
  | VString x, VString y => String.compare x y
  | VDateTime x, VDateTime y => String.compare x y
  | _, _ => Eq
  end.

Definition column_compare (c : Column) (r1 r2 : Row) : comparison :=
  Value_compare (column_value c r1) (column_value c r2).

(* ================================================================== *)
(** * The storage session and its queries *)
(* ================================================================== *)

(** A session on the database: the rows of the table in the order a scan
    yields them, and the state of the connection ([Some msg] when every
    statement sent over it fails with that message). *)
Record Session : Type := mk_session {
  table : list Row;
  connection_error : option string
}.

(** ** [ILIKE] *)

(** Lower case, on the letters A to Z. *)
Definition lower_ascii (c : ascii) : ascii :=
  let n := nat_of_ascii c in
  if ((65 <=? n) && (n <=? 90))%nat then ascii_of_nat (n + 32) else c.

Fixpoint lower (s : string) : string :=
  match s with
  | EmptyString => EmptyString
  | String c s' => String (lower_ascii c) (lower s')
  end.

(** [LIKE]: [%] stands for any run of characters, [_] for any one
    character, and a backslash takes the character after it literally. *)
Fixpoint like (pattern s : string) : bool :=
  match pattern with
  | EmptyString =>
      match s with EmptyString => true | String _ _ => false end
  | String p pattern' =>
      if (p =? "%")%char then
        (fix any_suffix (s : string) : bool :=
           like pattern' s
           || match s with
              | EmptyString => false
              | String _ s' => any_suffix s'
              end) s
      else if (p =? "_")%char then
        match s with
        | EmptyString => false
        | String _ s' => like pattern' s'
        end
      else
        match s with
        | EmptyString => false
        | String c s' =>
            if (p =? "\")%char then
              match pattern' with
              | String q pattern'' => (q =? c)%char && like pattern'' s'
              | EmptyString => (p =? c)%char && like pattern' s'
              end
            else (p =? c)%char && like pattern' s'
        end
  end.

(** [column.ilike(pattern)]: [LIKE] on the lower-cased operands. *)
Definition ilike (pattern s : string) : bool := like (lower pattern) (lower s).

(** ** [ORDER BY] *)

Fixpoint insert_sorted (leb : Row -> Row -> bool) (r : Row) (l : list Row)
  : list Row :=
  match l with
  | [] => [r]
  | x :: l' => if leb r x then r :: l else x :: insert_sorted leb r l'
  end.

(** Rows with equal keys keep the order of the scan. *)
Fixpoint sort_rows (leb : Row -> Row -> bool) (l : list Row) : list Row :=
  match l with
  | [] => []
  | r :: l' => insert_sorted leb r (sort_rows leb l')
  end.

Definition asc_leb (c : Column) (r1 r2 : Row) : bool :=
  match column_compare c r1 r2 with Gt => false | _ => true end.

Definition desc_leb (c : Column) (r1 r2 : Row) : bool :=
  match column_compare c r1 r2 with Lt => false | _ => true end.

(** ** The query object *)

Inductive Ordering : Type :=
  | asc (c : Column)
  | desc (c : Column).

(** A [Query] on the table: the criteria added by [filter], the error the
    engine will report for a criterion it cannot type, the [order_by]
    clause, and [limit] and [offset]. *)
Record Query : Type := mk_query {
  criteria : list (Row -> bool);
  untypable : option string;
  ordering : option Ordering;
  limit_clause : option Z;
  offset_clause : option Z
}.

(** [db.query(cls)] *)
Definition query_cls : Query := mk_query [] None None None None.

Definition filter_ (q : Query) (criterion : Row -> bool) : Query :=
  mk_query (criteria q ++ [criterion]) (untypable q) (ordering q)
           (limit_clause q) (offset_clause q).

Definition order_by (q : Query) (o : Ordering) : Query :=
  mk_query (criteria q) (untypable q) (Some o) (limit_clause q) (offset_clause q).

Definition limit_ (q : Query) (n : Z) : Query :=
  mk_query (criteria q) (untypable q) (ordering q) (Some n) (offset_clause q).

Definition offset_ (q : Query) (n : Z) : Query :=
  mk_query (criteria q) (untypable q) (ordering q) (limit_clause q) (Some n).

(** [query.filter(column.ilike(pattern))]: the engine has [ILIKE] on text
    only, a query with it on another column fails when it is executed. *)
Definition filter_ilike (q : Query) (c : Column) (pattern : string) : Query :=
  match c with
  | id_column => filter_ q (fun r => ilike pattern (id r))
  | name_column => filter_ q (fun r => ilike pattern (name r))
  | description_column => filter_ q (fun r => ilike pattern (description r))
  | _ =>
      mk_query (criteria q)
        (match untypable q with
         | Some m => Some m
         | None => Some ("operator does not exist: " ++ column_name c ++ " ~~* unknown")
         end)
        (ordering q) (limit_clause q) (offset_clause q)
  end.

Definition satisfies (q : Query) (r : Row) : bool :=
  forallb (fun criterion => criterion r) (criteria q).

Definition ordered (o : option Ordering) (rows : list Row) : list Row :=
  match o with
  | None => rows
  | Some (asc c) => sort_rows (asc_leb c) rows
  | Some (desc c) => sort_rows (desc_leb c) rows
  end.

(** [OFFSET] and [LIMIT]; the engine rejects a negative count. *)
Definition sliced (lim off : option Z) (rows : list Row) : result (list Row) :=
  rows <- match off with
          | None => Return rows
          | Some n =>
              if n <? 0 then Raise (SQLAlchemyExc "OFFSET must not be negative")
              else Return (skipn (Z.to_nat n) rows)
          end ;;
  match lim with
  | None => Return rows
  | Some n =>
      if n <? 0 then Raise (SQLAlchemyExc "LIMIT must not be negative")
      else Return (firstn (Z.to_nat n) rows)
  end.

(** [query.all()]: the statement is sent over the connection; the rows that
    satisfy every criterion are sorted, then sliced. *)
Definition all (db : Session) (q : Query) : result (list Row) :=
  match connection_error db with
  | Some m => Raise (SQLAlchemyExc m)
  | None =>
      match untypable q with
      | Some m => Raise (SQLAlchemyExc m)
      | None =>
          sliced (limit_clause q) (offset_clause q)
                 (ordered (ordering q) (filter (satisfies q) (table db)))
      end
  end.

(** [query.count()]: the number of rows of the query. *)
Definition count (db : Session) (q : Query) : result Z :=
  rows <- all db q ;;
  Return (Z.of_nat (List.length rows)).

(** [query.first()]: the first row of the query, or [None]. *)
Definition first (db : Session) (q : Query) : result (option Row) :=
  rows <- all db (limit_ q 1) ;;
  Return (hd_error rows).

(* ================================================================== *)
(** * [app/models/base_model.py]: the class methods of [BaseModel] *)
(* ================================================================== *)

(** Truth of an optional string and of an optional integer in an [if]:
    [None], the empty string and [0] are false. *)
Definition truthy_str (o : option string) : option string :=
  match o with
  | Some s => if (s =? "")%string then None else Some s
  | None => None
  end.

Definition truthy_int (o : option Z) : option Z :=
  match o with
  | Some z => if z =? 0 then None else Some z
  | None => None
  end.

(** Lines 43-57, repeated as lines 77-91 and 111-125: the query with the
    filters of the request and its order. *)
Definition filtered_sorted_query
    (sort_by order : string)
    (min_date max_date : option string) (min_value max_value : option Z)
    (search_field search : option string) : result Query :=
  let query := query_cls in
  let query :=
    match truthy_str min_date with
    | Some d => filter_ query (fun r => String.leb d (created_at r))
    | None => query
    end in
  let query :=
    match truthy_str max_date with
    | Some d => filter_ query (fun r => String.leb (created_at r) d)
    | None => query
    end in
  let query :=
    match truthy_int min_value with
    | Some v => filter_ query (fun r => v <=? value r)
    | None => query
    end in
  let query :=
    match truthy_int max_value with
    | Some v => filter_ query (fun r => value r <=? v)
    | None => query
    end in
  query <-
    match truthy_str search_field, truthy_str search with
    | Some field, Some term =>
        column <- getattr_column field ;;
        Return (filter_ilike query column ("%" ++ term ++ "%"))
    | _, _ => Return query
    end ;;
  column <- getattr_column sort_by ;;
  if (order =? "desc")%string
  then Return (order_by query (desc column))
  else Return (order_by query (asc column)).

Definition get_all (db : Session)
    (sort_by order : string)
    (min_date max_date : option string) (min_value max_value : option Z)
    (search_field search : option string) : result (list Dict) :=
  query <- filtered_sorted_query sort_by order min_date max_date
             min_value max_value search_field search ;;
  instances <- all db query ;;
  Return (map to_dict instances).

(** The last statement runs [db.query(cls)], not [query]. *)
Definition get_paginated (db : Session) (page limit : Z)
    (sort_by order : string)
    (min_date max_date : option string) (min_value max_value : option Z)
    (search_field search : option string) : result (list Dict) :=
  query <- filtered_sorted_query sort_by order min_date max_date
             min_value max_value search_field search ;;
  instances <- all db (offset_ (limit_ query_cls limit) ((page - 1) * limit)) ;;
  Return (map to_dict instances).

Record PaginationMetadata : Type := mk_metadata {
  total_count : Z;
  total_pages : Z;
  current_page : Z;
  page_size : Z
}.

(** [a // b] *)
Definition floordiv (a b : Z) : result Z :=
  if b =? 0 then Raise (ZeroDivisionExc "integer division or modulo by zero")
  else Return (a / b).

Definition get_pagination_metadata (db : Session) (page limit : Z)
    (sort_by order : string)
    (min_date max_date : option string) (min_value max_value : option Z)
    (search_field search : option string) : result PaginationMetadata :=
  query <- filtered_sorted_query sort_by order min_date max_date
             min_value max_value search_field search ;;
  total_count <- count db query ;;
  total_pages <- floordiv (total_count + limit - 1) limit ;;
  Return (mk_metadata total_count total_pages page limit).

Definition get_by_id (instance_id : string) (db : Session)
  : result (option Dict) :=
  instance <- first db (filter_ query_cls (fun r => (id r =? instance_id)%string)) ;;
  Return (option_map to_dict instance).

(** The keyword arguments of [create] and [update]: the dump of the
    [ExampleBase] schema of [example_schemas.py]. *)
Record ExampleBase : Type := mk_example {
  name_field : string;
  value_field : Z;
  description_field : string
}.

(** [db.commit()] after a change: the statement is sent over the
    connection. *)
Definition commit (db : Session) (rows : list Row) : result Session :=
  match connection_error db with
  | Some m => Raise (SQLAlchemyExc m)
  | None => Return (mk_session rows None)
  end.

(** [db.add(instance); db.commit()]: the [INSERT]; the primary key refuses
    a second row with the same [id]. *)
Definition add_commit (db : Session) (instance : Row) : result Session :=
  match connection_error db with
  | Some m => Raise (SQLAlchemyExc m)
  | None =>
      if existsb (fun r => (id r =? id instance)%string) (table db)
      then Raise (SQLAlchemyExc "duplicate key value violates unique constraint")
      else Return (mk_session (table db ++ [instance]) None)
  end.

(** [create]: [uuid] is what [generate_uuid()] yields for the new row and
    [now] what [func.now()] does. *)
Definition create (db : Session) (uuid now : string) (kwargs : ExampleBase)
  : result (Dict * Session) :=
  let instance :=
    mk_row uuid now now
           (name_field kwargs) (value_field kwargs) (description_field kwargs) in
  db' <- add_commit db instance ;;
  Return (to_dict instance, db').

(** [setattr] of the three fields on the row with the given [id]; the
    [UPDATE] that [commit] sends, and with it the refresh of [updated_at],
    happens when one of them changed. *)
Definition set_fields (now : string) (kwargs : ExampleBase) (r : Row) : Row :=
  if ((name r =? name_field kwargs)%string
      && (value r =? value_field kwargs)
      && (description r =? description_field kwargs)%string)%bool
  then r
  else mk_row (id r) (created_at r) now
              (name_field kwargs) (value_field kwargs) (description_field kwargs).

Definition update (instance_id : string) (db : Session) (now : string)
    (kwargs : ExampleBase) : result (option Dict * Session) :=
  instance <- first db (filter_ query_cls (fun r => (id r =? instance_id)%string)) ;;
  match instance with
  | Some r =>
      db' <- commit db
               (map (fun x => if (id x =? instance_id)%string
                              then set_fields now kwargs x else x) (table db)) ;;
      Return (Some (to_dict (set_fields now kwargs r)), db')
  | None => Return (None, db)
  end.

Definition delete (instance_id : string) (db : Session)
  : result (bool * Session) :=
  instance <- first db (filter_ query_cls (fun r => (id r =? instance_id)%string)) ;;
  match instance with
  | Some r =>
      db' <- commit db
               (filter (fun x => negb (id x =? id r)%string) (table db)) ;;
      Return (true, db')
  | None => Return (false, db)
  end.

(* ================================================================== *)
(** * [app/schemas/base_schemas.py]: the response envelopes *)
(* ================================================================== *)

Record APIBaseResponse : Type := mk_base_response {
  message : string;
  data : option Dict
}.

Record APIBaseListResponse : Type := mk_list_response {
  list_message : string;
  list_data : list Dict
}.

Record APIBasePaginatedResponse : Type := mk_paginated_response {
  paginated_message : string;
  paginated_data : list Dict;
  page : Z;
  paginated_total_pages : Z;
  total_records : Z;
  paginated_page_size : Z
}.

(* ================================================================== *)
(** * [app/routes/base_router.py]: [BaseRouter] on [ExampleModel] *)
(* ================================================================== *)

(** ** Core functionality *)

Definition get_all_records (db : Session)
    (sort_by order : string)
    (min_date max_date : option string) (min_value max_value : option Z)
    (search_field search : option string) : result APIBaseListResponse :=
  records <- get_all db sort_by order min_date max_date
               min_value max_value search_field search ;;
  (* [records] is a list, never [None] *)
  Return (mk_list_response ("All " ++ model_name ++ " records") records).

Definition get_paginated_records (db : Session) (page limit : Z)
    (sort_by order : string)
    (min_date max_date : option string) (min_value max_value : option Z)
    (search_field search : option string) : result APIBasePaginatedResponse :=
  records <- get_paginated db page limit sort_by order min_date max_date
               min_value max_value search_field search ;;
  pagination_metadata <- get_pagination_metadata db page limit sort_by order
               min_date max_date min_value max_value search_field search ;;
  (* [records] is a list, never [None] *)
  Return (mk_paginated_response
            ("All " ++ model_name ++ " records")
            records
            page
            (total_pages pagination_metadata)
            (total_count pagination_metadata)
            limit).

Definition get_record_by_id (record_id : string) (db : Session)
  : result APIBaseResponse :=
  record <- get_by_id record_id db ;;
  match record with
  | None =>
      raise (NotFoundErrorResponse_ ("No " ++ model_name ++ " Found With Given Id"))
  | Some d => Return (mk_base_response (model_name ++ " Found") (Some d))
  end.

(** [not record] on a dictionary, and on a dictionary or [None]. *)
Definition falsy_dict (d : Dict) : bool :=
  match d with [] => true | _ :: _ => false end.

Definition falsy_optional_dict (o : option Dict) : bool :=
  match o with None => true | Some d => falsy_dict d end.

Definition create_new_record (request : ExampleBase) (db : Session)
    (uuid now : string) : result (APIBaseResponse * Session) :=
  created <- create db uuid now request ;;
  let (record, db') := created in
  if falsy_dict record
  then raise (ErrorResponse_ ("Error Occurred While Creating " ++ model_name))
  else Return (mk_base_response (model_name ++ " Created Successfully") (Some record),
               db').

Definition update_existing_record (record_id : string) (request : ExampleBase)
    (db : Session) (now : string) : result (APIBaseResponse * Session) :=
  existing_record <- get_by_id record_id db ;;
  match existing_record with
  | None =>
      raise (NotFoundErrorResponse_ ("No " ++ model_name ++ " Found With Given Id"))
  | Some _ =>
      updated <- update record_id db now request ;;
      let (record, db') := updated in
      if falsy_optional_dict record
      then raise (ErrorResponse_ ("Error Occurred While Updating " ++ model_name))
      else Return (mk_base_response (model_name ++ " Updated Successfully") record,
                   db')
  end.

Definition delete_existing_record (record_id : string) (db : Session)
  : result (APIBaseResponse * Session) :=
  existing_record <- get_by_id record_id db ;;
  match existing_record with
  | None =>
      raise (NotFoundErrorResponse_ ("No " ++ model_name ++ " Found With Given Id"))
  | Some _ =>
      deleted <- delete record_id db ;;
      Return (mk_base_response (model_name ++ " Deleted Successfully") None,
              snd deleted)
  end.

(** ** Endpoints *)

(** A request to one of the six routes, with the parameters the route
    declares; the defaults of the query parameters of [/paginated] are
    filled in by the framework. *)
Inductive Request : Type :=
  | GET_all
  | GET_paginated (page limit : Z) (sort_by order : string)
      (min_date max_date : option string) (min_value max_value : option Z)
      (search_field search : option string)
  | GET_by_id (record_id : string)
  | POST (request : ExampleBase)
  | PUT (record_id : string) (request : ExampleBase)
  | DELETE (record_id : string).

Inductive Body : Type :=
  | Single (r : APIBaseResponse)
  | Listing (r : APIBaseListResponse)
  | Paginated (r : APIBasePaginatedResponse).

(** The status code each route is declared with. *)
Definition status_code_of (req : Request) : Z :=
  match req with
  | POST _ => HTTP_201_CREATED
  | _ => HTTP_200_OK
  end.

(** The body of the handler of each route, under the decorator. [uuid] and
    [now] are the identifier and the time the request would give a new row.
    The handler of [/all] passes no parameter but [db]. *)
Definition handler (uuid now : string) (req : Request) (db : Session)
  : result (Body * Session) :=
  match req with
  | GET_all =>
      r <- get_all_records db "created_at" "asc" None None None None None None ;;
      Return (Listing r, db)
  | GET_paginated page limit sort_by order min_date max_date
                  min_value max_value search_field search =>
      r <- get_paginated_records db page limit sort_by order min_date max_date
             min_value max_value search_field search ;;
      Return (Paginated r, db)
  | GET_by_id record_id =>
      r <- get_record_by_id record_id db ;;
      Return (Single r, db)
  | POST request =>
      r <- create_new_record request db uuid now ;;
      Return (Single (fst r), snd r)
  | PUT record_id request =>
      r <- update_existing_record record_id request db now ;;
      Return (Single (fst r), snd r)
  | DELETE record_id =>
      r <- delete_existing_record record_id db ;;
      Return (Single (fst r), snd r)
  end.

(** The endpoint: the handler under [@handle_exceptions]. *)
Definition endpoint (uuid now : string) (req : Request) (db : Session)
  : result (Body * Session) :=
  handle_exceptions (handler uuid now req db).

(** The status code of the response to a request. *)
Definition status_of (uuid now : string) (req : Request) (db : Session) : Z :=
  response_status (status_code_of req) (endpoint uuid now req db).

(* ================================================================== *)
(** * [app/routes/old_base_router.py]: the earlier [BaseRouter] *)
(* ================================================================== *)

Module OldBaseRouter.

Definition HTTP_204_NO_CONTENT : Z := 204.

(** What the five handlers return: the list of [get_all], one record, a
    message with the record under [details], or a message alone. *)
Inductive Body : Type :=
  | Records (records : list Dict)
  | Record_ (record : Dict)
  | MessageDetails (message : string) (details : Dict)
  | Message (message : string).

(** ** Core functionality *)

Definition get_all_records (db : Session) : result (list Dict) :=
  records <- get_all db "created_at" "asc" None None None None None None ;;
  (* [records] is a list, never [None] *)
  Return records.

Definition get_record_by_id (record_id : string) (db : Session)
  : result Dict :=
  record <- get_by_id record_id db ;;
  match record with
  | None =>
      raise (ExcObject
        (HTTPExc HTTP_204_NO_CONTENT
           ("No " ++ model_name ++ " Found With Given Id") []))
  | Some d => Return d
  end.

Definition create_new_record (request : ExampleBase) (db : Session)
    (uuid now : string) : result (Body * Session) :=
  created <- create db uuid now request ;;
  let (record, db') := created in
  if falsy_dict record
  then raise (ExcObject
         (HTTPExc 500 ("Error occurred while creating " ++ model_name ++ ".") []))
  else Return (MessageDetails (model_name ++ " created successfully") record, db').

(** No look-up before [update]: a missing row shows as its [None]. *)
Definition update_existing_record (record_id : string) (request : ExampleBase)
    (db : Session) (now : string) : result (Body * Session) :=
  updated <- update record_id db now request ;;
  let (record, db') := updated in
  match record with
  | Some d =>
      if falsy_dict d
      then raise (ExcObject
             (HTTPExc 500 ("Error occurred while updating " ++ model_name ++ ".") []))
      else Return (MessageDetails (model_name ++ " updated successfully") d, db')
  | None =>
      raise (ExcObject
        (HTTPExc 500 ("Error occurred while updating " ++ model_name ++ ".") []))
  end.

Definition delete_existing_record (record_id : string) (db : Session)
  : result (Body * Session) :=
  existing_record <- get_by_id record_id db ;;
  match existing_record with
  | None =>
      raise (ExcObject (HTTPExc 404 ("No " ++ model_name ++ " found") []))
  | Some _ =>
      deleted <- delete record_id db ;;
      Return (Message (model_name ++ " deleted successfully"), snd deleted)
  end.

(** ** Endpoints *)

Inductive Request : Type :=
  | GET_all
  | GET_by_id (record_id : string)
  | POST (request : ExampleBase)
  | PUT (record_id : string) (request : ExampleBase)
  | DELETE (record_id : string).

Definition status_code_of (req : Request) : Z :=
  match req with
  | POST _ => HTTP_201_CREATED
  | _ => HTTP_200_OK
  end.

Definition handler (uuid now : string) (req : Request) (db : Session)
  : result (Body * Session) :=
  match req with
  | GET_all =>
      r <- get_all_records db ;;
      Return (Records r, db)
  | GET_by_id record_id =>
      r <- get_record_by_id record_id db ;;
      Return (Record_ r, db)
  | POST request => create_new_record request db uuid now
  | PUT record_id request => update_existing_record record_id request db now
  | DELETE record_id => delete_existing_record record_id db
  end.

Definition endpoint (uuid now : string) (req : Request) (db : Session)
  : result (Body * Session) :=
  handle_exceptions (handler uuid now req db).

Definition status_of (uuid now : string) (req : Request) (db : Session) : Z :=
  response_status (status_code_of req) (endpoint uuid now req db).

End OldBaseRouter.

(* ================================================================== *)
(** * Notions of the specification *)
(* ================================================================== *)

(** [ceil(n / p)] for a positive [p]. *)
Definition ceil_div (n p : Z) : Z := - ((- n) / p).

(** The Python slice [l[(page-1)*page_size : page*page_size]] for a page
    number from 1 and a page size from 0. *)
Definition page_slice {A : Type} (page page_size : Z) (l : list A) : list A :=
  firstn (Z.to_nat page_size) (skipn (Z.to_nat ((page - 1) * page_size)) l).

(** [needle] occurs in [hay] as a substring. *)
Definition occurs_in (needle hay : string) : Prop :=
  exists pre post : string, hay = pre ++ needle ++ post.

(** The same, up to the case of letters. *)
Definition occurs_in_ci (needle hay : string) : Prop :=
  occurs_in (lower needle) (lower hay).

(** A decision procedure for [occurs_in]. *)
Fixpoint contains (needle hay : string) : bool :=
  String.prefix needle hay
  || match hay with
     | EmptyString => false
     | String _ hay' => contains needle hay'
     end.

(** The text a row holds in a column of type [String]. *)
Definition text_of (c : Column) (r : Row) : string :=
  match column_value c r with
  | VString s => s
  | VDateTime s => s
  | VInteger _ => EmptyString
  end.

(** No character of [s] has a meaning of its own in a [LIKE] pattern. *)
Fixpoint plain (s : string) : bool :=
  match s with
  | EmptyString => true
  | String c s' =>
      negb (c =? "%")%char && negb (c =? "_")%char && negb (c =? "\")%char
      && plain s'
  end.


(** The column names of a request to [/paginated] are names of columns:
    the query of the request can be built. The other routes take no name. *)
Definition names_columns (req : Request) : bool :=
  match req with
  | GET_paginated _ _ sort_by order min_date max_date
                  min_value max_value search_field search =>
      match filtered_sorted_query sort_by order min_date max_date
              min_value max_value search_field search with
      | Return _ => true
      | Raise _ => false
      end
  | _ => true
  end.


(** The rows of a list of dictionaries come in ascending, or descending,
    order of a column of the rows they were made from. *)
Definition ascending (c : Column) (rows : list Row) : Prop :=
  Sorted (fun r1 r2 => column_compare c r1 r2 <> Gt) rows.

Definition descending (c : Column) (rows : list Row) : Prop :=
  Sorted (fun r1 r2 => column_compare c r1 r2 <> Lt) rows.

(* ================================================================== *)
(** * Sample data *)
(* ================================================================== *)

Definition widget : Row :=
  mk_row "0b9f3c1e-0000-4000-8000-000000000001"
         "2024-01-01 10:00:00" "2024-01-01 10:00:00" "Widget" 10 "d".

Definition gadget : Row :=
  mk_row "0b9f3c1e-0000-4000-8000-000000000002"
         "2024-01-02 10:00:00" "2024-01-02 10:00:00" "Example" 3 "d".

(** A row created at the same instant as [widget]. *)
Definition gizmo : Row :=
  mk_row "0b9f3c1e-0000-4000-8000-000000000003"
         "2024-01-01 10:00:00" "2024-01-01 10:00:00" "a" 7 "d".

Definition two_rows : Session := mk_session [widget; gadget] None.
Definition tied_rows : Session := mk_session [widget; gizmo] None.
Definition one_row : Session := mk_session [gizmo] None.
Definition disconnected : Session :=
  mk_session [widget] (Some "connection refused").

(* ================================================================== *)
(** * The exception translator *)
(* ================================================================== *)

Lemma bind_Return {A B : Type} (a : A) (k : A -> result B) :
  (x <- Return a ;; k x) = k a.
Proof. reflexivity. Qed.

Lemma bind_Raise {A B : Type} (e : PyExc) (k : A -> result B) :
  (x <- Raise e ;; k x) = Raise e.
Proof. reflexivity. Qed.

Lemma bind_inv {A B : Type} (m : result A) (k : A -> result B) (b : B) :
  (x <- m ;; k x) = Return b -> exists a, m = Return a /\ k a = Return b.
Proof.
  destruct m as [a | e]; simpl; intros H.
  - exists a. split; [reflexivity | exact H].
  - discriminate H.
Qed.

(** A value returned by the handler is returned by the wrapper. *)
Lemma handle_exceptions_Return {A : Type} (a : A) :
  handle_exceptions (Return a) = Return a.
Proof. reflexivity. Qed.

(** Whatever the wrapper raises after the first two clauses is the
    [TypeError] of the third: the class it names is a pydantic model. *)
Lemma handle_exceptions_third_clause {A : Type} (e : PyExc) :
  isinstance e HTTPException = false ->
  isinstance e SQLAlchemyError = false ->
  handle_exceptions (Raise e : result A) =
  Raise (TypeExc
    "catching classes that do not inherit from BaseException is not allowed").
Proof.
  intros H1 H2. unfold handle_exceptions. simpl.
  rewrite H1, H2. reflexivity.
Qed.

(** The record-not-found signal of the router, through the wrapper. *)
Lemma not_found_signal_translated {A : Type} (m : string) :
  handle_exceptions (raise (NotFoundErrorResponse_ m) : result A) =
  Raise (TypeExc
    "catching classes that do not inherit from BaseException is not allowed").
Proof. reflexivity. Qed.

(** [first] of a query with one criterion, on a working connection: the
    first row of the scan that satisfies it. *)
Lemma first_filter (db : Session) (p : Row -> bool) :
  connection_error db = None ->
  first db (filter_ query_cls p) = Return (find p (table db)).
Proof.
  intros Hc. unfold first, all. rewrite Hc. simpl. f_equal.
  induction (table db) as [| r l IH]; simpl; [reflexivity |].
  unfold satisfies at 1. simpl. rewrite andb_true_r.
  destruct (p r); simpl; [reflexivity | exact IH].
Qed.

(** [get_by_id] on a working connection: the first row with that [id]. *)
Lemma get_by_id_connected (instance_id : string) (db : Session) :
  connection_error db = None ->
  get_by_id instance_id db =
  Return (option_map to_dict
            (find (fun r => (id r =? instance_id)%string) (table db))).
Proof.
  intros Hc. unfold get_by_id. rewrite (first_filter _ _ Hc). reflexivity.
Qed.

(** On a working connection, the three routes that take an identifier answer
    500 when no row has it. *)
Lemma missing_record_status (uuid now : string) (db : Session)
    (record_id : string) (request : ExampleBase) :
  connection_error db = None ->
  find (fun r => (id r =? record_id)%string) (table db) = None ->
  status_of uuid now (GET_by_id record_id) db = 500
  /\ status_of uuid now (PUT record_id request) db = 500
  /\ status_of uuid now (DELETE record_id) db = 500.
Proof.
  intros Hc Hf.
  unfold status_of, endpoint, handler, get_record_by_id,
    update_existing_record, delete_existing_record.
  rewrite (get_by_id_connected _ _ Hc), Hf. simpl.
  repeat split; reflexivity.
Qed.

(** C2, evaluated on the code: with one row stored and a working connection,
    GET, PUT and DELETE on an identifier that no row has do not answer 404.
    The [raise] of the pydantic [NotFoundErrorResponse] in the router is a
    [TypeError], the wrapper's clause for that class raises [TypeError] in
    turn, and the response carries the status 500 and no detail. *)
Theorem not_found_answers_500 :
  endpoint "u" "t" (GET_by_id "missing") one_row =
    Raise (TypeExc
      "catching classes that do not inherit from BaseException is not allowed")
  /\ status_of "u" "t" (GET_by_id "missing") one_row = 500
  /\ response_detail (endpoint "u" "t" (GET_by_id "missing") one_row) = None
  /\ status_of "u" "t" (PUT "missing" (mk_example "n" 1 "d")) one_row = 500
  /\ status_of "u" "t" (DELETE "missing") one_row = 500
  /\ HTTP_404_NOT_FOUND <> 500.
Proof.
  repeat split; try reflexivity.
  unfold HTTP_404_NOT_FOUND. lia.
Qed.

(** C5: when the handler of a request fails with a storage error, the
    wrapper raises the [HTTPException] with the code 420 and the text of
    the error, and that code, not 500, is the status of the response. *)
Theorem storage_error_answers_420 (uuid now : string) (req : Request)
    (db : Session) (msg : string) :
  handler uuid now req db = Raise (SQLAlchemyExc msg) ->
  endpoint uuid now req db =
    Raise (HTTPExc 420 ("Database connection error occurred: " ++ msg)
                   [("X-Error", "Database Error")])
  /\ status_of uuid now req db = 420
  /\ status_of uuid now req db <> HTTP_500_INTERNAL_SERVER_ERROR.
Proof.
  intros H. unfold status_of, endpoint. rewrite H. simpl.
  repeat split. unfold HTTP_500_INTERNAL_SERVER_ERROR. lia.
Qed.

(** A create request on a connection that is down. *)
Lemma storage_error_answers_420_witness :
  handler "u" "t" (POST (mk_example "Widget" 10 "d")) disconnected =
    Raise (SQLAlchemyExc "connection refused")
  /\ status_of "u" "t" (POST (mk_example "Widget" 10 "d")) disconnected = 420.
Proof.
  split; [reflexivity |].
  apply (storage_error_answers_420 "u" "t"
           (POST (mk_example "Widget" 10 "d")) disconnected "connection refused").
  reflexivity.
Defined.

(** C6: an [HTTPException] that reaches the wrapper leaves it as it came,
    with its status code, its detail and its headers; the response carries
    that status code. *)
Theorem http_exception_passes_through (A : Type) (code : Z) (detail : string)
    (headers : list (string * string)) :
  handle_exceptions (Raise (HTTPExc code detail headers) : result A) =
    Raise (HTTPExc code detail headers)
  /\ (forall success : Z,
        response_status success
          (handle_exceptions (Raise (HTTPExc code detail headers) : result A))
        = code)
  /\ response_detail
       (handle_exceptions (Raise (HTTPExc code detail headers) : result A))
     = Some detail.
Proof. repeat split. Qed.

(* ================================================================== *)
(** * The query engine *)
(* ================================================================== *)

(** ** Sorting keeps the rows *)

Lemma insert_sorted_perm (leb : Row -> Row -> bool) (r : Row) (l : list Row) :
  Permutation (insert_sorted leb r l) (r :: l).
Proof.
  induction l as [| x l IH]; simpl.
  - apply Permutation_refl.
  - destruct (leb r x).
    + apply Permutation_refl.
    + eapply perm_trans; [apply perm_skip, IH | apply perm_swap].
Qed.

Lemma sort_rows_perm (leb : Row -> Row -> bool) (l : list Row) :
  Permutation (sort_rows leb l) l.
Proof.
  induction l as [| r l IH]; simpl.
  - apply perm_nil.
  - eapply perm_trans; [apply insert_sorted_perm | apply perm_skip, IH].
Qed.

Lemma ordered_perm (o : option Ordering) (l : list Row) :
  Permutation (ordered o l) l.
Proof.
  destruct o as [[c | c] |]; simpl;
    [apply sort_rows_perm | apply sort_rows_perm | apply Permutation_refl].
Qed.

Lemma ordered_length (o : option Ordering) (l : list Row) :
  List.length (ordered o l) = List.length l.
Proof. apply Permutation_length, ordered_perm. Qed.

(** ** The query the three list methods build *)

(** The query carries an order and neither [limit] nor [offset]. *)
Lemma filtered_sorted_query_clauses
    (sort_by order : string) (min_date max_date : option string)
    (min_value max_value : option Z) (search_field search : option string)
    (q : Query) :
  filtered_sorted_query sort_by order min_date max_date min_value max_value
    search_field search = Return q ->
  limit_clause q = None /\ offset_clause q = None
  /\ exists column, getattr_column sort_by = Return column
       /\ ordering q = Some (if (order =? "desc")%string
                             then desc column else asc column).
Proof.
  unfold filtered_sorted_query. intros H.
  apply bind_inv in H. destruct H as [q0 [Hq0 H]].
  apply bind_inv in H. destruct H as [column [Hcol H]].
  assert (Hlo : limit_clause q0 = None /\ offset_clause q0 = None).
  { destruct (truthy_str min_date), (truthy_str max_date),
      (truthy_int min_value), (truthy_int max_value),
      (truthy_str search_field), (truthy_str search);
      simpl in Hq0;
      try (injection Hq0 as <-; split; reflexivity);
      (apply bind_inv in Hq0; destruct Hq0 as [c [_ Hq0]];
       injection Hq0 as <-; destruct c; split; reflexivity). }
  destruct Hlo as [Hl Ho].
  destruct (order =? "desc")%string; injection H as <-; simpl;
    (split; [exact Hl | split; [exact Ho | exists column; split;
      [exact Hcol | reflexivity]]]).
Qed.

(** [count] of such a query on a working connection: the number of rows of
    the table that satisfy its criteria. *)
Lemma count_unsliced (db : Session) (q : Query) :
  connection_error db = None ->
  untypable q = None ->
  limit_clause q = None ->
  offset_clause q = None ->
  count db q = Return (Z.of_nat (List.length (filter (satisfies q) (table db)))).
Proof.
  intros Hc Hu Hl Ho. unfold count, all. rewrite Hc, Hu, Hl, Ho. simpl.
  rewrite ordered_length. reflexivity.
Qed.

(** ** Page count *)

Lemma floordiv_ceil (n p : Z) : 0 < p -> (n + p - 1) / p = ceil_div n p.
Proof.
  intros Hp. unfold ceil_div.
  pose proof (Z.div_mod (n + p - 1) p ltac:(lia)) as H1.
  pose proof (Z.mod_pos_bound (n + p - 1) p Hp) as B1.
  pose proof (Z.div_mod (- n) p ltac:(lia)) as H2.
  pose proof (Z.mod_pos_bound (- n) p Hp) as B2.
  nia.
Qed.

Lemma ceil_div_bounds (n p : Z) :
  0 < p -> (ceil_div n p - 1) * p < n <= ceil_div n p * p.
Proof.
  intros Hp. unfold ceil_div.
  pose proof (Z.div_mod (- n) p ltac:(lia)) as H2.
  pose proof (Z.mod_pos_bound (- n) p Hp) as B2.
  nia.
Qed.

(** C3: on a working connection and for a positive page size, the metadata
    of a request whose query the engine accepts holds the number [n] of
    rows that satisfy its filters and, as the page count, the ceiling of
    [n / limit]: the integer [k] with [(k - 1) * limit < n <= k * limit]. *)
Theorem total_pages_is_ceiling (db : Session) (page limit : Z)
    (sort_by order : string) (min_date max_date : option string)
    (min_value max_value : option Z) (search_field search : option string)
    (query : Query) :
  0 < limit ->
  connection_error db = None ->
  filtered_sorted_query sort_by order min_date max_date min_value max_value
    search_field search = Return query ->
  untypable query = None ->
  let n := Z.of_nat (List.length (filter (satisfies query) (table db))) in
  get_pagination_metadata db page limit sort_by order min_date max_date
    min_value max_value search_field search
  = Return (mk_metadata n (ceil_div n limit) page limit)
  /\ 0 <= n
  /\ (ceil_div n limit - 1) * limit < n <= ceil_div n limit * limit.
Proof.
  intros Hl Hc Hq Hu n.
  destruct (filtered_sorted_query_clauses _ _ _ _ _ _ _ _ _ Hq)
    as [Hlim [Hoff _]].
  split; [| split; [subst n; lia | apply ceil_div_bounds; exact Hl]].
  unfold get_pagination_metadata. rewrite Hq. simpl.
  rewrite (count_unsliced db query Hc Hu Hlim Hoff). simpl.
  unfold floordiv. destruct (limit =? 0) eqn:E; [lia |].
  simpl. fold n. rewrite (floordiv_ceil n limit Hl). reflexivity.
Qed.

(** Two rows, pages of one: two pages. *)
Lemma total_pages_is_ceiling_witness :
  get_pagination_metadata two_rows 1 1 "created_at" "asc"
    None None None None None None
  = Return (mk_metadata 2 2 1 1).
Proof.
  apply (total_pages_is_ceiling two_rows 1 1 "created_at" "asc"
           None None None None None None
           (order_by query_cls (asc created_at_column)));
    [lia | reflexivity | reflexivity | reflexivity].
Defined.

(** ** Bounds equal to zero *)

(** C10: a [min_value] or [max_value] of 0 is false in the [if] that would
    add the filter, so each of the three list methods answers such a
    request as it answers the request without that bound. *)
Theorem zero_bound_not_applied (db : Session) (page limit : Z)
    (sort_by order : string) (min_date max_date : option string)
    (bound : option Z) (search_field search : option string) :
  get_all db sort_by order min_date max_date (Some 0) bound search_field search
  = get_all db sort_by order min_date max_date None bound search_field search
  /\ get_all db sort_by order min_date max_date bound (Some 0) search_field search
     = get_all db sort_by order min_date max_date bound None search_field search
  /\ get_paginated db page limit sort_by order min_date max_date
       (Some 0) bound search_field search
     = get_paginated db page limit sort_by order min_date max_date
         None bound search_field search
  /\ get_paginated db page limit sort_by order min_date max_date
       bound (Some 0) search_field search
     = get_paginated db page limit sort_by order min_date max_date
         bound None search_field search
  /\ get_pagination_metadata db page limit sort_by order min_date max_date
       (Some 0) bound search_field search
     = get_pagination_metadata db page limit sort_by order min_date max_date
         None bound search_field search
  /\ get_pagination_metadata db page limit sort_by order min_date max_date
       bound (Some 0) search_field search
     = get_pagination_metadata db page limit sort_by order min_date max_date
         bound None search_field search.
Proof. repeat split; reflexivity. Qed.

(** A row whose value is negative is listed under [min_value = 0], and one
    whose value is positive under [max_value = 0]. *)
Example zero_bound_keeps_rows :
  get_all (mk_session [mk_row "i" "t" "t" "n" (-5) "d"] None)
    "created_at" "asc" None None (Some 0) None None None
  = Return [to_dict (mk_row "i" "t" "t" "n" (-5) "d")]
  /\ get_all one_row "created_at" "asc" None None None (Some 0) None None
     = Return [to_dict gizmo].
Proof. split; reflexivity. Qed.

(** ** Delete *)

Lemma find_filter_out (instance_id : string) (l : list Row) :
  find (fun r => (id r =? instance_id)%string)
       (filter (fun x => negb (id x =? instance_id)%string) l) = None.
Proof.
  induction l as [| x l IH]; simpl; [reflexivity |].
  destruct (id x =? instance_id)%string eqn:E; simpl; [exact IH |].
  rewrite E. exact IH.
Qed.

(** C9: on a working connection [delete] returns, its result is [True]
    exactly when a row with the identifier was stored, and [get_by_id] on
    the session it leaves finds no row with that identifier. *)
Theorem delete_then_get_by_id (instance_id : string) (db : Session) :
  connection_error db = None ->
  exists (existed : bool) (db' : Session),
    delete instance_id db = Return (existed, db')
    /\ (existed = true <-> exists r, In r (table db) /\ id r = instance_id)
    /\ get_by_id instance_id db' = Return None.
Proof.
  intros Hc. unfold delete. rewrite (first_filter _ _ Hc).
  destruct (find (fun r => (id r =? instance_id)%string) (table db))
    as [r |] eqn:Hf; simpl.
  - apply find_some in Hf. destruct Hf as [Hin Hid].
    apply String.eqb_eq in Hid.
    unfold commit. rewrite Hc. simpl.
    eexists. eexists. split; [reflexivity |]. split.
    + split; [intros _; exists r; split; assumption | reflexivity].
    + rewrite get_by_id_connected by reflexivity. simpl.
      rewrite Hid, find_filter_out. reflexivity.
  - exists false, db. split; [reflexivity |]. split.
    + split; [discriminate |].
      intros [r [Hin Hid]].
      pose proof (find_none _ _ Hf r Hin) as Hn. simpl in Hn.
      rewrite Hid, String.eqb_refl in Hn. discriminate Hn.
    + rewrite (get_by_id_connected _ _ Hc), Hf. reflexivity.
Qed.

(** Deleting [widget] from the two sample rows. *)
Lemma delete_then_get_by_id_witness :
  connection_error two_rows = None
  /\ exists (existed : bool) (db' : Session),
       delete (id widget) two_rows = Return (existed, db')
       /\ (existed = true <->
           exists r, In r (table two_rows) /\ id r = id widget)
       /\ get_by_id (id widget) db' = Return None.
Proof.
  split; [reflexivity |].
  apply (delete_then_get_by_id (id widget) two_rows). reflexivity.
Defined.

(** ** The page of [get_paginated] *)

(** What [get_paginated] returns on a working connection for a page number
    from 1 and a page size from 0, once the query it sets aside is built:
    the page of the table as the scan yields it. *)
Lemma get_paginated_scan (db : Session) (page limit : Z)
    (sort_by order : string) (min_date max_date : option string)
    (min_value max_value : option Z) (search_field search : option string)
    (query : Query) :
  connection_error db = None ->
  1 <= page -> 0 <= limit ->
  filtered_sorted_query sort_by order min_date max_date min_value max_value
    search_field search = Return query ->
  get_paginated db page limit sort_by order min_date max_date
    min_value max_value search_field search
  = Return (map to_dict (page_slice page limit (table db))).
Proof.
  intros Hc Hp Hl Hq. unfold get_paginated. rewrite Hq. simpl.
  unfold all. rewrite Hc. simpl. unfold sliced.
  destruct ((page - 1) * limit <? 0) eqn:E1; [nia |].
  simpl. destruct (limit <? 0) eqn:E2; [lia |].
  simpl. unfold page_slice. f_equal. f_equal. f_equal. f_equal.
  unfold satisfies. simpl.
  induction (table db) as [| r l IH]; simpl; [reflexivity | f_equal; exact IH].
Qed.

(** C1, evaluated on the code: with the rows [widget] (value 10) and
    [gadget] (value 3) stored, page 1 of size 10 under [min_value = 5]
    holds both rows, where the filtered result set and its slice hold
    [widget] alone; and in descending order of [created_at] the page comes
    in the order of the scan, where the sorted result set starts with
    [gadget]. *)
Theorem page_ignores_filter_and_order :
  get_paginated two_rows 1 10 "created_at" "asc" None None (Some 5) None None None
    = Return [to_dict widget; to_dict gadget]
  /\ (exists matching,
        get_all two_rows "created_at" "asc" None None (Some 5) None None None
          = Return matching
        /\ page_slice 1 10 matching = [to_dict widget])
  /\ get_paginated two_rows 1 10 "created_at" "desc" None None None None None None
       = Return [to_dict widget; to_dict gadget]
  /\ (exists sorted,
        get_all two_rows "created_at" "desc" None None None None None None
          = Return sorted
        /\ page_slice 1 10 sorted = [to_dict gadget; to_dict widget]).
Proof.
  split; [reflexivity |].
  split; [eexists; split; reflexivity |].
  split; [reflexivity |].
  eexists; split; reflexivity.
Qed.

(** C4, evaluated on the code: with the same rows stored, no row satisfies
    [min_value = 100], the metadata count no row and no page, page 1 lies
    beyond that page count, and the page holds both rows. *)
Theorem page_beyond_filtered_count_not_empty :
  get_pagination_metadata two_rows 1 10 "created_at" "asc"
      None None (Some 100) None None None
    = Return (mk_metadata 0 0 1 10)
  /\ get_paginated two_rows 1 10 "created_at" "asc"
       None None (Some 100) None None None
     = Return [to_dict widget; to_dict gadget]
  /\ exists r, get_paginated_records two_rows 1 10 "created_at" "asc"
                 None None (Some 100) None None None = Return r
       /\ paginated_total_pages r = 0 /\ total_records r = 0
       /\ List.length (paginated_data r) = 2%nat.
Proof.
  split; [reflexivity |]. split; [reflexivity |].
  eexists. split; [reflexivity |]. repeat split.
Qed.

(** X5: Without filters the page count is that of the table, and a page beyond
    it is empty and raises nothing. *)
Lemma page_beyond_table_empty (db : Session) (page limit : Z)
    (sort_by order : string) (column : Column) :
  connection_error db = None ->
  0 < limit ->
  getattr_column sort_by = Return column ->
  ceil_div (Z.of_nat (List.length (table db))) limit < page ->
  get_paginated db page limit sort_by order None None None None None None
  = Return [].
Proof.
  intros Hc Hl Hcol Hp.
  pose proof (ceil_div_bounds (Z.of_nat (List.length (table db))) limit Hl) as B.
  assert (Hq : exists q,
    filtered_sorted_query sort_by order None None None None None None = Return q).
  { unfold filtered_sorted_query. simpl. rewrite Hcol. simpl.
    destruct (order =? "desc")%string; eexists; reflexivity. }
  destruct Hq as [q Hq].
  rewrite (get_paginated_scan db page limit _ _ _ _ _ _ _ _ q Hc) ;
    [| nia | lia | exact Hq].
  unfold page_slice. rewrite skipn_all2; [destruct (Z.to_nat limit); reflexivity |].
  nia.
Qed.

(* ================================================================== *)
(** * Sort order *)
(* ================================================================== *)

(** ** The order of a column *)

Lemma string_compare_lt_trans (a b c : string) :
  String.compare a b = Lt -> String.compare b c = Lt -> String.compare a c = Lt.
Proof.
  intros H1 H2.
  apply String_as_OT.cmp_lt. apply String_as_OT.cmp_lt in H1, H2.
  exact (String_as_OT.lt_trans _ _ _ H1 H2).
Qed.

Lemma Value_compare_antisym (a b : Value) :
  Value_compare a b = CompOpp (Value_compare b a).
Proof.
  destruct a, b; simpl; try reflexivity;
    [apply String.compare_antisym | apply Z.compare_antisym
     | apply String.compare_antisym].
Qed.

Lemma column_compare_antisym (c : Column) (r1 r2 : Row) :
  column_compare c r1 r2 = CompOpp (column_compare c r2 r1).
Proof. apply Value_compare_antisym. Qed.

Lemma column_compare_Eq (c : Column) (r1 r2 : Row) :
  column_compare c r1 r2 = Eq -> column_value c r1 = column_value c r2.
Proof.
  unfold column_compare. destruct c; simpl; intros H;
    first [ apply String.compare_eq_iff in H | apply Z.compare_eq in H ];
    rewrite H; reflexivity.
Qed.

Lemma column_compare_Lt_trans (c : Column) (r1 r2 r3 : Row) :
  column_compare c r1 r2 = Lt -> column_compare c r2 r3 = Lt ->
  column_compare c r1 r3 = Lt.
Proof.
  unfold column_compare. destruct c; simpl;
    first [ apply string_compare_lt_trans
          | intros H1 H2; rewrite Z.compare_lt_iff in *; lia ].
Qed.

Lemma column_compare_same (c : Column) (r1 r2 r3 : Row) :
  column_compare c r1 r2 = Eq ->
  column_compare c r1 r3 = column_compare c r2 r3.
Proof.
  intros H. apply column_compare_Eq in H.
  unfold column_compare. rewrite H. reflexivity.
Qed.

(** "Not after" on a column is transitive. *)
Lemma not_Gt_trans (c : Column) (r1 r2 r3 : Row) :
  column_compare c r1 r2 <> Gt -> column_compare c r2 r3 <> Gt ->
  column_compare c r1 r3 <> Gt.
Proof.
  intros H1 H2.
  destruct (column_compare c r1 r2) eqn:E1; [| | congruence].
  - rewrite (column_compare_same c r1 r2 r3 E1). exact H2.
  - destruct (column_compare c r2 r3) eqn:E2; [| | congruence].
    + rewrite column_compare_antisym in E2.
      destruct (column_compare c r3 r2) eqn:E3; try discriminate.
      rewrite column_compare_antisym,
        (column_compare_same c r3 r2 r1 E3), <- column_compare_antisym, E1.
      discriminate.
    + rewrite (column_compare_Lt_trans c r1 r2 r3 E1 E2). discriminate.
Qed.

Lemma not_Lt_trans (c : Column) (r1 r2 r3 : Row) :
  column_compare c r1 r2 <> Lt -> column_compare c r2 r3 <> Lt ->
  column_compare c r1 r3 <> Lt.
Proof.
  intros H1 H2.
  assert (G : column_compare c r3 r1 <> Gt).
  { apply (not_Gt_trans c r3 r2 r1); rewrite column_compare_antisym;
      [destruct (column_compare c r2 r3) | destruct (column_compare c r1 r2)];
      simpl; congruence. }
  rewrite column_compare_antisym.
  destruct (column_compare c r3 r1); simpl; congruence.
Qed.

(** ** Insertion into a sorted list *)

Section Insertion.

Variable leb : Row -> Row -> bool.
Hypothesis leb_total : forall a b, leb a b = false -> leb b a = true.

Lemma insert_sorted_HdRel (a r : Row) (l : list Row) :
  leb a r = true -> HdRel (fun x y => leb x y = true) a l ->
  HdRel (fun x y => leb x y = true) a (insert_sorted leb r l).
Proof.
  intros Har Hhd. destruct l as [| x l]; simpl.
  - constructor. exact Har.
  - destruct (leb r x); constructor;
      [exact Har | exact (HdRel_inv Hhd)].
Qed.

Lemma insert_sorted_Sorted (r : Row) (l : list Row) :
  Sorted (fun x y => leb x y = true) l ->
  Sorted (fun x y => leb x y = true) (insert_sorted leb r l).
Proof.
  induction 1 as [| a l Hs IH Hhd]; simpl.
  - repeat constructor.
  - destruct (leb r a) eqn:E.
    + constructor; [constructor; assumption | constructor; exact E].
    + constructor; [exact IH |].
      apply insert_sorted_HdRel; [apply leb_total; exact E | exact Hhd].
Qed.

Lemma sort_rows_Sorted (l : list Row) :
  Sorted (fun x y => leb x y = true) (sort_rows leb l).
Proof.
  induction l as [| r l IH]; simpl;
    [constructor | apply insert_sorted_Sorted; exact IH].
Qed.

End Insertion.

Lemma Sorted_impl (P Q : Row -> Row -> Prop) (l : list Row) :
  (forall a b, P a b -> Q a b) -> Sorted P l -> Sorted Q l.
Proof.
  intros HPQ. induction 1 as [| a l Hs IH Hhd]; constructor; [exact IH |].
  destruct Hhd; constructor. apply HPQ. assumption.
Qed.

Lemma sort_rows_ascending (c : Column) (l : list Row) :
  ascending c (sort_rows (asc_leb c) l).
Proof.
  unfold ascending.
  apply Sorted_impl with (P := fun a b => asc_leb c a b = true).
  - unfold asc_leb. intros a b H E. rewrite E in H. discriminate H.
  - apply sort_rows_Sorted. unfold asc_leb. intros a b H.
    rewrite column_compare_antisym.
    destruct (column_compare c a b); simpl; [discriminate | discriminate | reflexivity].
Qed.

Lemma sort_rows_descending (c : Column) (l : list Row) :
  descending c (sort_rows (desc_leb c) l).
Proof.
  unfold descending.
  apply Sorted_impl with (P := fun a b => desc_leb c a b = true).
  - unfold desc_leb. intros a b H E. rewrite E in H. discriminate H.
  - apply sort_rows_Sorted. unfold desc_leb. intros a b H.
    rewrite column_compare_antisym.
    destruct (column_compare c a b); simpl; [discriminate | reflexivity | discriminate].
Qed.

(** ** A sorted list of rows with distinct keys is determined by its rows *)

Section Uniqueness.

Variable R : Row -> Row -> Prop.

Lemma StronglySorted_snoc (l : list Row) (a : Row) :
  StronglySorted R l -> Forall (fun x => R x a) l ->
  StronglySorted R (l ++ [a]).
Proof.
  induction 1 as [| x l Hs IH Hx]; intros Hall; simpl.
  - repeat constructor.
  - inversion Hall as [| ? ? Hxa Hla]; subst.
    constructor; [exact (IH Hla) |].
    apply Forall_app. split; [exact Hx | repeat constructor; exact Hxa].
Qed.

Lemma StronglySorted_rev (l : list Row) :
  StronglySorted (fun a b => R b a) l -> StronglySorted R (rev l).
Proof.
  induction 1 as [| x l Hs IH Hx]; simpl.
  - constructor.
  - apply StronglySorted_snoc; [exact IH |].
    apply Forall_rev. exact Hx.
Qed.

Lemma sorted_permutation_unique (l1 : list Row) :
  forall l2 : list Row,
  (forall x y, In x l1 -> In y l1 -> R x y -> R y x -> x = y) ->
  StronglySorted R l1 -> StronglySorted R l2 -> Permutation l1 l2 ->
  l1 = l2.
Proof.
  induction l1 as [| a l1 IH]; intros l2 Hanti S1 S2 P.
  - apply Permutation_nil in P. symmetry. exact P.
  - destruct l2 as [| b l2].
    + apply Permutation_sym, Permutation_nil in P. discriminate P.
    + apply StronglySorted_inv in S1. destruct S1 as [S1 F1].
      apply StronglySorted_inv in S2. destruct S2 as [S2 F2].
      assert (Hab : a = b).
      { assert (Ia : In a (b :: l2))
          by (apply (Permutation_in a P); left; reflexivity).
        assert (Ib : In b (a :: l1))
          by (apply (Permutation_in b (Permutation_sym P)); left; reflexivity).
        destruct Ia as [E | Ia]; [symmetry; exact E |].
        destruct Ib as [E | Ib]; [exact E |].
        apply Hanti;
          [left; reflexivity | right; exact Ib
           | exact (proj1 (Forall_forall _ _) F1 b Ib)
           | exact (proj1 (Forall_forall _ _) F2 a Ia)]. }
      subst b. f_equal.
      apply IH; [| exact S1 | exact S2 | exact (Permutation_cons_inv P)].
      intros x y Hx Hy. apply Hanti; right; assumption.
Qed.

End Uniqueness.

Lemma NoDup_map_injective {A B : Type} (f : A -> B) (l : list A) (x y : A) :
  NoDup (map f l) -> In x l -> In y l -> f x = f y -> x = y.
Proof.
  induction l as [| a l IH]; simpl; intros Hnd Hx Hy Hf; [contradiction |].
  inversion Hnd as [| ? ? Hnotin Hnd']; subst.
  destruct Hx as [-> | Hx], Hy as [-> | Hy].
  - reflexivity.
  - exfalso. apply Hnotin. rewrite Hf. apply in_map. exact Hy.
  - exfalso. apply Hnotin. rewrite <- Hf. apply in_map. exact Hx.
  - exact (IH Hnd' Hx Hy Hf).
Qed.

Lemma not_Lt_Transitive (c : Column) :
  Relations_1.Transitive (fun r1 r2 => column_compare c r1 r2 <> Lt).
Proof. intros x y z. apply not_Lt_trans. Qed.

Lemma not_Lt_flipped_Transitive (c : Column) :
  Relations_1.Transitive (fun r1 r2 => column_compare c r2 r1 <> Lt).
Proof. intros x y z H1 H2. exact (not_Lt_trans c z y x H2 H1). Qed.

(** With pairwise distinct values in the column, the rows in descending
    order are the rows in ascending order reversed, whatever produced the
    two lists. *)
Lemma descending_is_reversed_ascending (c : Column)
    (l rows_asc rows_desc : list Row) :
  NoDup (map (column_value c) l) ->
  Permutation rows_asc l -> Permutation rows_desc l ->
  ascending c rows_asc -> descending c rows_desc ->
  rows_desc = rev rows_asc.
Proof.
  intros Hnd Pa Pd Sa Sd.
  apply sorted_permutation_unique
    with (R := fun r1 r2 => column_compare c r1 r2 <> Lt).
  - intros x y Hx Hy Hxy Hyx.
    apply (Permutation_in _ Pd) in Hx, Hy.
    apply (NoDup_map_injective (column_value c) l x y Hnd Hx Hy).
    apply column_compare_Eq.
    rewrite column_compare_antisym in Hyx.
    destruct (column_compare c x y); simpl in *; congruence.
  - apply Sorted_StronglySorted; [apply not_Lt_Transitive | exact Sd].
  - apply StronglySorted_rev.
    apply Sorted_StronglySorted; [apply not_Lt_flipped_Transitive |].
    apply Sorted_impl with (P := fun a b => column_compare c a b <> Gt).
    + intros a b H. rewrite column_compare_antisym.
      destruct (column_compare c a b); simpl in *; congruence.
    + exact Sa.
  - eapply perm_trans; [exact Pd |].
    eapply perm_trans; [| apply Permutation_rev].
    apply Permutation_sym. exact Pa.
Qed.

Lemma sort_rows_desc_rev (c : Column) (l : list Row) :
  NoDup (map (column_value c) l) ->
  sort_rows (desc_leb c) l = rev (sort_rows (asc_leb c) l).
Proof.
  intros Hnd.
  apply (descending_is_reversed_ascending c l);
    [exact Hnd | apply sort_rows_perm | apply sort_rows_perm
     | apply sort_rows_ascending | apply sort_rows_descending].
Qed.

(** [get_all] with no filter on a working connection. *)
Lemma get_all_unfiltered (db : Session) (sort_by order : string)
    (column : Column) :
  connection_error db = None ->
  getattr_column sort_by = Return column ->
  get_all db sort_by order None None None None None None
  = Return (map to_dict
      (ordered (Some (if (order =? "desc")%string
                      then desc column else asc column)) (table db))).
Proof.
  intros Hc Hcol. unfold get_all, filtered_sorted_query. simpl.
  rewrite Hcol. simpl.
  assert (Hf : forall l : list Row,
             filter (satisfies (mk_query [] None None None None)) l = l).
  { induction l as [| r l IH]; simpl; [reflexivity | f_equal; exact IH]. }
  destruct (order =? "desc")%string; simpl; unfold all; rewrite Hc; simpl;
    unfold satisfies; simpl; fold (satisfies (mk_query [] None None None None));
    rewrite Hf; reflexivity.
Qed.

(** C7, as the code has it: on a working connection [get_all] with its
    default parameters returns the stored rows with the earliest
    [created_at] first, with [order = "desc"] it returns them with the
    latest first, and when no two stored rows have the same [created_at]
    the second list is the reverse of the first. *)
Theorem created_at_order (db : Session) :
  connection_error db = None ->
  exists rows_asc rows_desc : list Row,
    get_all db "created_at" "asc" None None None None None None
      = Return (map to_dict rows_asc)
    /\ get_all db "created_at" "desc" None None None None None None
       = Return (map to_dict rows_desc)
    /\ Permutation rows_asc (table db)
    /\ Permutation rows_desc (table db)
    /\ ascending created_at_column rows_asc
    /\ descending created_at_column rows_desc
    /\ (NoDup (map created_at (table db)) ->
        map to_dict rows_desc = rev (map to_dict rows_asc)).
Proof.
  intros Hc.
  exists (sort_rows (asc_leb created_at_column) (table db)),
         (sort_rows (desc_leb created_at_column) (table db)).
  split; [exact (get_all_unfiltered db "created_at" "asc" _ Hc eq_refl) |].
  split; [exact (get_all_unfiltered db "created_at" "desc" _ Hc eq_refl) |].
  split; [apply sort_rows_perm |].
  split; [apply sort_rows_perm |].
  split; [apply sort_rows_ascending |].
  split; [apply sort_rows_descending |].
  intros Hnd. rewrite <- map_rev. f_equal.
  apply sort_rows_desc_rev.
  change (map (column_value created_at_column) (table db))
    with (map (fun r => VDateTime (created_at r)) (table db)).
  rewrite <- (map_map created_at VDateTime).
  apply Finite.Injective_map_NoDup; [| exact Hnd].
  intros x y H. injection H as H. exact H.
Qed.

(** Two rows created a day apart. *)
Lemma created_at_order_witness :
  connection_error two_rows = None
  /\ NoDup (map created_at (table two_rows))
  /\ exists rows_asc rows_desc : list Row,
       get_all two_rows "created_at" "asc" None None None None None None
         = Return (map to_dict rows_asc)
       /\ get_all two_rows "created_at" "desc" None None None None None None
          = Return (map to_dict rows_desc)
       /\ Permutation rows_asc (table two_rows)
       /\ Permutation rows_desc (table two_rows)
       /\ ascending created_at_column rows_asc
       /\ descending created_at_column rows_desc
       /\ (NoDup (map created_at (table two_rows)) ->
           map to_dict rows_desc = rev (map to_dict rows_asc)).
Proof.
  split; [reflexivity |].
  split.
  - simpl. repeat constructor; simpl; intuition discriminate.
  - apply (created_at_order two_rows). reflexivity.
Defined.

(** C7 as stated fails on rows created at the same instant: [widget] and
    [gizmo] come in the order of the scan in both directions. *)
Lemma descending_keeps_ties :
  exists listed_asc listed_desc : list Dict,
    get_all tied_rows "created_at" "asc" None None None None None None
      = Return listed_asc
    /\ get_all tied_rows "created_at" "desc" None None None None None None
       = Return listed_desc
    /\ listed_asc = [to_dict widget; to_dict gizmo]
    /\ listed_desc = [to_dict widget; to_dict gizmo]
    /\ listed_desc <> rev listed_asc.
Proof.
  eexists. eexists.
  split; [reflexivity |]. split; [reflexivity |].
  split; [reflexivity |]. split; [reflexivity |].
  vm_compute. intros H. discriminate H.
Qed.

(* ================================================================== *)
(** * Search *)
(* ================================================================== *)

(** ** Strings *)

Lemma append_assoc (a b c : string) : ((a ++ b) ++ c = a ++ (b ++ c))%string.
Proof. induction a as [| x a IH]; simpl; [reflexivity | rewrite IH; reflexivity]. Qed.

Lemma lower_append (a b : string) : lower (a ++ b) = (lower a ++ lower b)%string.
Proof. induction a as [| x a IH]; simpl; [reflexivity | rewrite IH; reflexivity]. Qed.

Lemma prefix_spec (needle hay : string) :
  String.prefix needle hay = true <-> exists post, hay = (needle ++ post)%string.
Proof.
  revert needle. induction hay as [| h hay IH]; intros needle; simpl.
  - destruct needle as [| n needle]; split; intros H.
    + exists EmptyString. reflexivity.
    + reflexivity.
    + discriminate H.
    + destruct H as [post H]. discriminate H.
  - destruct needle as [| n needle].
    + split; [intros _; exists (String h hay); reflexivity | reflexivity].
    + destruct (ascii_dec n h) as [-> | Hne].
      * rewrite IH. split; intros [post H]; exists post; simpl;
          [rewrite H; reflexivity | injection H as H; exact H].
      * split; [discriminate |].
        intros [post H]. injection H as H1 H2. congruence.
Qed.

(** [contains] decides [occurs_in]. *)
Lemma contains_spec (needle hay : string) :
  contains needle hay = true <-> occurs_in needle hay.
Proof.
  unfold occurs_in. induction hay as [| h hay IH].
  - simpl. rewrite orb_false_r. split.
    + destruct needle; [| discriminate].
      intros _. exists EmptyString, EmptyString. reflexivity.
    + intros [pre [post H]].
      destruct pre; [| discriminate H]. destruct needle; [reflexivity | discriminate H].
  - cbn [contains]. rewrite orb_true_iff, prefix_spec, IH. split.
    + intros [[post H] | [pre [post H]]].
      * exists EmptyString, post. exact H.
      * exists (String h pre), post. simpl. rewrite H. reflexivity.
    + intros [pre [post H]]. destruct pre as [| p pre]; simpl in H.
      * left. exists post. exact H.
      * right. injection H as _ H. exists pre, post. exact H.
Qed.

(** ** [LIKE] on a term without pattern characters *)

Lemma like_percent (p s : string) :
  like (String "%" p) s
  = like p s || match s with
                | EmptyString => false
                | String _ s' => like (String "%" p) s'
                end.
Proof. destruct s; reflexivity. Qed.

Lemma plain_cons (c : ascii) (t : string) :
  plain (String c t) = true ->
  (c =? "%")%char = false /\ (c =? "_")%char = false
  /\ (c =? "\")%char = false /\ plain t = true.
Proof.
  simpl. rewrite !andb_true_iff, !negb_true_iff. tauto.
Qed.

Lemma like_literal (c : ascii) (p s : string) :
  (c =? "%")%char = false -> (c =? "_")%char = false ->
  (c =? "\")%char = false ->
  like (String c p) s
  = match s with
    | EmptyString => false
    | String d s' => (c =? d)%char && like p s'
    end.
Proof. intros H1 H2 H3. simpl. rewrite H1, H2, H3. destruct s; reflexivity. Qed.

Lemma like_trailing_percent (s : string) : like "%" s = true.
Proof.
  induction s as [| c s IH]; [reflexivity |].
  rewrite like_percent. rewrite IH. apply orb_true_r.
Qed.

(** A plain term followed by [%] matches the strings that start with it. *)
Lemma like_plain_prefix (t s : string) :
  plain t = true ->
  like (t ++ "%") s = true <-> exists post, s = (t ++ post)%string.
Proof.
  revert s. induction t as [| c t IH]; intros s Hp.
  - simpl append. rewrite like_trailing_percent.
    split; [intros _; exists s; reflexivity | reflexivity].
  - apply plain_cons in Hp. destruct Hp as [H1 [H2 [H3 Hp]]].
    simpl append. rewrite (like_literal c _ s H1 H2 H3).
    destruct s as [| d s].
    + split; [discriminate | intros [post H]; discriminate H].
    + rewrite andb_true_iff, (IH s Hp), Ascii.eqb_eq. split.
      * intros [-> [post ->]]. exists post. reflexivity.
      * intros [post H]. injection H as -> ->. split; [reflexivity |].
        exists post. reflexivity.
Qed.

(** [%] in front: the rest of the pattern matches a suffix. *)
Lemma like_leading_percent (p s : string) :
  like (String "%" p) s = true
  <-> exists pre post, s = (pre ++ post)%string /\ like p post = true.
Proof.
  induction s as [| c s IH]; rewrite like_percent.
  - rewrite orb_false_r. split.
    + intros H. exists EmptyString, EmptyString. split; [reflexivity | exact H].
    + intros [pre [post [H1 H2]]].
      destruct pre; [| discriminate H1]. simpl in H1. subst post. exact H2.
  - rewrite orb_true_iff, IH. split.
    + intros [H | [pre [post [H1 H2]]]].
      * exists EmptyString, (String c s). split; [reflexivity | exact H].
      * exists (String c pre), post. split; [simpl; rewrite H1; reflexivity | exact H2].
    + intros [pre [post [H1 H2]]]. destruct pre as [| x pre]; simpl in H1.
      * left. subst post. exact H2.
      * right. injection H1 as _ H1. exists pre, post. split; assumption.
Qed.

(** The pattern [%term%] of a plain term: the strings the term occurs in. *)
Lemma like_plain_occurs (t s : string) :
  plain t = true ->
  like ("%" ++ t ++ "%") s = true <-> occurs_in t s.
Proof.
  intros Hp. change ("%" ++ t ++ "%")%string with (String "%" (t ++ "%")).
  rewrite like_leading_percent. unfold occurs_in. split.
  - intros [pre [post [H1 H2]]].
    apply (like_plain_prefix t post Hp) in H2. destruct H2 as [post' ->].
    exists pre, post'. exact H1.
  - intros [pre [post H]]. exists pre, (t ++ post)%string.
    split; [exact H |]. apply (like_plain_prefix t _ Hp). exists post. reflexivity.
Qed.

Lemma lower_ascii_pattern_char (c x : ascii) :
  x = "%"%char \/ x = "_"%char \/ x = "\"%char ->
  (c =? x)%char = false -> (lower_ascii c =? x)%char = false.
Proof.
  intros Hx Hc. apply Ascii.eqb_neq. apply Ascii.eqb_neq in Hc.
  intros E. apply Hc. clear Hc. unfold lower_ascii in E.
  destruct ((65 <=? nat_of_ascii c)%nat && (nat_of_ascii c <=? 90)%nat) eqn:B;
    [| exact E].
  exfalso. apply andb_true_iff in B. destruct B as [B1 B2].
  apply Nat.leb_le in B1, B2.
  assert (N : nat_of_ascii (ascii_of_nat (nat_of_ascii c + 32))
              = (nat_of_ascii c + 32)%nat)
    by (apply nat_ascii_embedding; lia).
  rewrite E in N.
  destruct Hx as [-> | [-> | ->]];
    [ change (nat_of_ascii "%") with 37%nat in N
    | change (nat_of_ascii "_") with 95%nat in N
    | change (nat_of_ascii "\") with 92%nat in N ]; lia.
Qed.

Lemma plain_lower (t : string) : plain t = true -> plain (lower t) = true.
Proof.
  induction t as [| c t IH]; [reflexivity |].
  intros Hp. apply plain_cons in Hp. destruct Hp as [H1 [H2 [H3 Hp]]].
  simpl.
  rewrite (lower_ascii_pattern_char c "%" (or_introl eq_refl) H1).
  rewrite (lower_ascii_pattern_char c "_" (or_intror (or_introl eq_refl)) H2).
  rewrite (lower_ascii_pattern_char c "\" (or_intror (or_intror eq_refl)) H3).
  rewrite (IH Hp). reflexivity.
Qed.

(** [ilike] with the pattern the methods build from a plain term. *)
Lemma ilike_plain_occurs (term s : string) :
  plain term = true ->
  ilike ("%" ++ term ++ "%") s = true <-> occurs_in_ci term s.
Proof.
  intros Hp. unfold ilike, occurs_in_ci.
  rewrite !lower_append.
  change (lower "%") with "%".
  apply like_plain_occurs. apply plain_lower. exact Hp.
Qed.

(** ** The search filter of [get_all] *)

Lemma truthy_str_nonempty (s : string) :
  s <> EmptyString -> truthy_str (Some s) = Some s.
Proof.
  intros H. unfold truthy_str.
  destruct (s =? "")%string eqn:E; [| reflexivity].
  apply String.eqb_eq in E. contradiction.
Qed.

Lemma getattr_column_nonempty (attr : string) (c : Column) :
  getattr_column attr = Return c -> attr <> EmptyString.
Proof. intros H E. subst attr. discriminate H. Qed.

(** The query of a request with a search and no other filter. *)
Lemma filtered_sorted_query_search (sort_by order : string)
    (sort_column : Column) (search_field term : string) (column : Column) :
  getattr_column sort_by = Return sort_column ->
  getattr_column search_field = Return column ->
  term <> EmptyString ->
  filtered_sorted_query sort_by order None None None None
    (Some search_field) (Some term)
  = Return (order_by (filter_ilike query_cls column ("%" ++ term ++ "%"))
              (if (order =? "desc")%string
               then desc sort_column else asc sort_column)).
Proof.
  intros Hsort Hcol Hterm. unfold filtered_sorted_query.
  rewrite (truthy_str_nonempty _ (getattr_column_nonempty _ _ Hcol)).
  rewrite (truthy_str_nonempty _ Hterm).
  cbn [truthy_str truthy_int]. rewrite Hcol. cbn [bind]. rewrite Hsort.
  cbn [bind]. destruct (order =? "desc")%string; reflexivity.
Qed.

(** On a text column the criterion added is [ilike] on the text of the
    row. *)
Lemma filter_ilike_text (c : Column) (pattern : string) :
  column_type c = String_type ->
  filter_ilike query_cls c pattern
  = filter_ query_cls (fun r => ilike pattern (text_of c r)).
Proof. destruct c; simpl; intros H; try discriminate H; reflexivity. Qed.

Lemma satisfies_one_criterion (p : Row -> bool) (o : Ordering) (r : Row) :
  satisfies (order_by (filter_ query_cls p) o) r = p r.
Proof. unfold satisfies. simpl. apply andb_true_r. Qed.

(** The empty string occurs in every string. *)
Lemma occurs_in_ci_empty (s : string) : occurs_in_ci EmptyString s.
Proof. exists EmptyString, (lower s). reflexivity. Qed.

(** The query of a request whose search term is empty: no criterion. *)
Lemma filtered_sorted_query_empty_search (sort_by order : string)
    (sort_column : Column) (search_field : string) :
  getattr_column sort_by = Return sort_column ->
  filtered_sorted_query sort_by order None None None None
    (Some search_field) (Some EmptyString)
  = Return (order_by query_cls
              (if (order =? "desc")%string
               then desc sort_column else asc sort_column)).
Proof.
  intros Hsort. unfold filtered_sorted_query.
  cbn [truthy_str truthy_int String.eqb].
  destruct (if (search_field =? "")%string then None else Some search_field);
    cbn [bind]; rewrite Hsort; cbn [bind];
    destruct (order =? "desc")%string; reflexivity.
Qed.

(** C8, as the code has it: for a search term that holds none of the
    pattern characters [%], [_] and backslash, and a search field that
    names a text column, the rows [get_all] lists are the stored rows in
    whose text in that column the term occurs, letter case aside. *)
Theorem search_is_substring_match (db : Session) (sort_by order : string)
    (sort_column : Column) (search_field term : string) (column : Column) :
  connection_error db = None ->
  getattr_column sort_by = Return sort_column ->
  getattr_column search_field = Return column ->
  column_type column = String_type ->
  plain term = true ->
  exists rows : list Row,
    get_all db sort_by order None None None None
      (Some search_field) (Some term) = Return (map to_dict rows)
    /\ forall r : Row,
         In r rows <->
         In r (table db) /\ occurs_in_ci term (text_of column r).
Proof.
  intros Hc Hsort Hcol Hty Hplain.
  unfold get_all.
  destruct (string_dec term EmptyString) as [-> | Hterm].
  - rewrite (filtered_sorted_query_empty_search _ order _ _ Hsort).
    cbn [bind]. unfold all. rewrite Hc.
    cbn [untypable order_by query_cls limit_clause offset_clause ordering
         sliced bind].
    eexists. split; [reflexivity |].
    intros r. split.
    + intros Hin. apply (Permutation_in _ (ordered_perm _ _)) in Hin.
      apply filter_In in Hin.
      split; [exact (proj1 Hin) | apply occurs_in_ci_empty].
    + intros [Hin _].
      apply (Permutation_in _ (Permutation_sym (ordered_perm _ _))).
      apply filter_In. split; [exact Hin | reflexivity].
  - rewrite (filtered_sorted_query_search _ order _ _ _ _ Hsort Hcol Hterm).
    rewrite (filter_ilike_text _ _ Hty). cbn [bind].
    unfold all. rewrite Hc.
    cbn [untypable order_by filter_ query_cls limit_clause offset_clause
         ordering sliced bind].
    eexists. split; [reflexivity |].
    intros r. split.
    + intros Hin. apply (Permutation_in _ (ordered_perm _ _)) in Hin.
      apply filter_In in Hin. destruct Hin as [Hin Hsat].
      split; [exact Hin |].
      rewrite satisfies_one_criterion in Hsat.
      apply (ilike_plain_occurs term _ Hplain). exact Hsat.
    + intros [Hin Hocc].
      apply (Permutation_in _ (Permutation_sym (ordered_perm _ _))).
      apply filter_In. split; [exact Hin |].
      rewrite satisfies_one_criterion.
      apply (ilike_plain_occurs term _ Hplain). exact Hocc.
Qed.

(** Searching "ex" in [name] lists the row named "Example" and not the row
    named "Widget". *)
Lemma search_is_substring_match_witness :
  (exists rows : list Row,
     get_all two_rows "created_at" "asc" None None None None
       (Some "name") (Some "ex") = Return (map to_dict rows)
     /\ forall r : Row,
          In r rows <->
          In r (table two_rows) /\ occurs_in_ci "ex" (text_of name_column r))
  /\ get_all two_rows "created_at" "asc" None None None None
       (Some "name") (Some "ex") = Return [to_dict gadget]
  /\ name gadget = "Example".
Proof.
  split; [| split; reflexivity].
  apply (search_is_substring_match two_rows "created_at" "asc"
           created_at_column "name" "ex" name_column);
    reflexivity.
Defined.

(** C8 as stated fails on a term with a pattern character: "_" is not a
    substring of "a", and the search for it in [name] lists the row named
    "a". *)
Lemma underscore_matches_any_character :
  get_all one_row "created_at" "asc" None None None None
    (Some "name") (Some "_") = Return [to_dict gizmo]
  /\ name gizmo = "a"
  /\ ~ occurs_in_ci "_" (name gizmo).
Proof.
  split; [reflexivity |]. split; [reflexivity |].
  unfold occurs_in_ci. intros H. apply contains_spec in H.
  vm_compute in H. discriminate H.
Qed.

(* ================================================================== *)
(** * Further properties of the exception translator *)
(* ================================================================== *)

(** X1: Whatever the wrapper raises is the [HTTPException] the handler raised,
    the 420 made from a storage error of the handler, or the [TypeError] of
    the third clause: no [ValueError] leaves it as a 400, and no exception
    as a 404 or as the 500 of the last clause. *)
Theorem wrapper_raises_three_ways (A : Type) (func : result A) (e' : PyExc) :
  handle_exceptions func = Raise e' ->
  (exists code detail headers,
     func = Raise (HTTPExc code detail headers)
     /\ e' = HTTPExc code detail headers)
  \/ (exists msg,
        func = Raise (SQLAlchemyExc msg)
        /\ e' = HTTPExc 420 ("Database connection error occurred: " ++ msg)
                  [("X-Error", "Database Error")])
  \/ ((exists e, func = Raise e
                 /\ isinstance e HTTPException = false
                 /\ isinstance e SQLAlchemyError = false)
      /\ e' = TypeExc
           "catching classes that do not inherit from BaseException is not allowed").
Proof.
  destruct func as [a | e]; simpl; intros H; [discriminate H |].
  injection H as <-.
  destruct e as [code detail headers | msg | msg | msg | msg | msg | msg].
  - left. exists code, detail, headers. split; reflexivity.
  - right. left. exists msg. split; reflexivity.
  - right. right. split; [eexists; repeat split | reflexivity].
  - right. right. split; [eexists; repeat split | reflexivity].
  - right. right. split; [eexists; repeat split | reflexivity].
  - right. right. split; [eexists; repeat split | reflexivity].
  - right. right. split; [eexists; repeat split | reflexivity].
Qed.

(** A handler that raises [ValueError]: the response is a 500, not a 400. *)
Lemma wrapper_raises_three_ways_witness :
  handle_exceptions (Raise (ValueExc "invalid literal") : result Z)
    = Raise (TypeExc
        "catching classes that do not inherit from BaseException is not allowed")
  /\ response_status 200
       (handle_exceptions (Raise (ValueExc "invalid literal") : result Z)) = 500.
Proof.
  split; [| reflexivity].
  destruct (wrapper_raises_three_ways Z (Raise (ValueExc "invalid literal"))
              (TypeExc
        "catching classes that do not inherit from BaseException is not allowed")
              eq_refl)
    as [[code [detail [headers [H _]]]] | [[msg [H _]] | [_ H]]];
    [discriminate H | discriminate H | reflexivity].
Defined.

(** ** No handler of the router raises an [HTTPException] *)



















(* ================================================================== *)
(** * Further properties of the list methods *)
(* ================================================================== *)

(** ** Names that are no column *)

Lemma getattr_column_unknown (attr : string) :
  (forall c : Column, column_name c <> attr) ->
  exists msg, getattr_column attr = Raise (AttributeExc msg).
Proof.
  intros H. unfold getattr_column.
  destruct (find (fun c => (column_name c =? attr)%string) columns)
    as [c |] eqn:E.
  - apply find_some in E. destruct E as [_ E].
    apply String.eqb_eq in E. exfalso. exact (H c E).
  - eexists. reflexivity.
Qed.

Lemma filtered_sorted_query_unknown_sort
    (sort_by order : string) (min_date max_date : option string)
    (min_value max_value : option Z) (search_field search : option string) :
  (forall c : Column, column_name c <> sort_by) ->
  exists msg,
    filtered_sorted_query sort_by order min_date max_date min_value max_value
      search_field search = Raise (AttributeExc msg).
Proof.
  intros H. destruct (getattr_column_unknown sort_by H) as [msg Hmsg].
  unfold filtered_sorted_query. rewrite Hmsg.
  destruct (truthy_str search_field) as [field |];
    [destruct (truthy_str search) as [term |] |]; cbn [bind];
    try (eexists; reflexivity).
  unfold getattr_column at 1.
  destruct (find (fun c => (column_name c =? field)%string) columns);
    cbn [bind]; eexists; reflexivity.
Qed.

(** X3: A [sort_by] that names no column makes the three list methods raise
    [AttributeError] before any statement is sent, on a working connection
    and on a broken one alike, and the paginated route answers 500. *)
Theorem unknown_sort_column (db : Session) (page limit : Z)
    (sort_by order : string) (min_date max_date : option string)
    (min_value max_value : option Z) (search_field search : option string) :
  (forall c : Column, column_name c <> sort_by) ->
  exists msg,
    get_all db sort_by order min_date max_date min_value max_value
      search_field search = Raise (AttributeExc msg)
    /\ get_paginated db page limit sort_by order min_date max_date
         min_value max_value search_field search = Raise (AttributeExc msg)
    /\ get_pagination_metadata db page limit sort_by order min_date max_date
         min_value max_value search_field search = Raise (AttributeExc msg)
    /\ forall uuid now,
         status_of uuid now
           (GET_paginated page limit sort_by order min_date max_date
              min_value max_value search_field search) db = 500.
Proof.
  intros H.
  destruct (filtered_sorted_query_unknown_sort sort_by order min_date max_date
              min_value max_value search_field search H) as [msg Hq].
  exists msg.
  unfold status_of, endpoint, handler, get_paginated_records,
    get_all, get_paginated, get_pagination_metadata.
  rewrite Hq. repeat split.
Qed.

(** Sorting by a column that does not exist, on a connection that is
    down. *)
Lemma unknown_sort_column_witness :
  exists msg,
    get_all disconnected "price" "asc" None None None None None None
      = Raise (AttributeExc msg)
    /\ status_of "u" "t"
         (GET_paginated 1 10 "price" "asc" None None None None None None)
         disconnected = 500.
Proof.
  destruct (unknown_sort_column disconnected 1 10 "price" "asc"
              None None None None None None)
    as [msg [H1 [_ [_ H4]]]].
  - intros c. destruct c; discriminate.
  - exists msg. split; [exact H1 | apply H4].
Defined.

(** ** A page size of zero *)

(** X4: With [limit = 0] on a working connection the page is empty, the page
    count divides by zero, and the paginated route answers 500 whatever the
    page number. *)
Theorem zero_limit (db : Session) (page : Z)
    (sort_by order : string) (min_date max_date : option string)
    (min_value max_value : option Z) (search_field search : option string)
    (query : Query) :
  connection_error db = None ->
  filtered_sorted_query sort_by order min_date max_date min_value max_value
    search_field search = Return query ->
  untypable query = None ->
  get_paginated db page 0 sort_by order min_date max_date
    min_value max_value search_field search = Return []
  /\ get_pagination_metadata db page 0 sort_by order min_date max_date
       min_value max_value search_field search
     = Raise (ZeroDivisionExc "integer division or modulo by zero")
  /\ forall uuid now,
       status_of uuid now
         (GET_paginated page 0 sort_by order min_date max_date
            min_value max_value search_field search) db = 500.
Proof.
  intros Hc Hq Hu.
  destruct (filtered_sorted_query_clauses _ _ _ _ _ _ _ _ _ Hq)
    as [Hlim [Hoff _]].
  assert (Hp : get_paginated db page 0 sort_by order min_date max_date
                 min_value max_value search_field search = Return []).
  { unfold get_paginated. rewrite Hq. cbn [bind].
    unfold all. rewrite Hc.
    cbn [untypable limit_clause offset_clause offset_ limit_ query_cls].
    unfold sliced. rewrite Z.mul_0_r. reflexivity. }
  assert (Hm : get_pagination_metadata db page 0 sort_by order min_date
                 max_date min_value max_value search_field search
               = Raise (ZeroDivisionExc "integer division or modulo by zero")).
  { unfold get_pagination_metadata. rewrite Hq. cbn [bind].
    rewrite (count_unsliced db query Hc Hu Hlim Hoff). reflexivity. }
  split; [exact Hp |]. split; [exact Hm |].
  intros uuid now.
  unfold status_of, endpoint, handler, get_paginated_records.
  rewrite Hp, Hm. reflexivity.
Qed.

Lemma zero_limit_witness :
  get_paginated two_rows 3 0 "created_at" "asc" None None None None None None
    = Return []
  /\ status_of "u" "t"
       (GET_paginated 3 0 "created_at" "asc" None None None None None None)
       two_rows = 500.
Proof.
  destruct (zero_limit two_rows 3 "created_at" "asc" None None None None
              None None (order_by query_cls (asc created_at_column))
              eq_refl eq_refl eq_refl) as [H1 [_ H3]].
  split; [exact H1 | apply H3].
Defined.

(** ** Pages of the table *)

(** The two sample rows in pages of one: the third page is empty. *)
Lemma page_beyond_table_empty_witness :
  ceil_div (Z.of_nat (List.length (table two_rows))) 1 < 3
  /\ get_paginated two_rows 3 1 "created_at" "asc"
       None None None None None None = Return [].
Proof.
  split; [vm_compute; reflexivity |].
  apply (page_beyond_table_empty two_rows 3 1 "created_at" "asc"
           created_at_column);
    [reflexivity | lia | reflexivity | vm_compute; reflexivity].
Defined.

(** ** The count of the metadata *)

(** X6: For one and the same request and a page size other than 0, the metadata
    count the records that [get_all] lists. *)
Theorem metadata_count_matches_get_all (db : Session) (page limit : Z)
    (sort_by order : string) (min_date max_date : option string)
    (min_value max_value : option Z) (search_field search : option string)
    (records : list Dict) :
  limit <> 0 ->
  get_all db sort_by order min_date max_date min_value max_value
    search_field search = Return records ->
  get_pagination_metadata db page limit sort_by order min_date max_date
    min_value max_value search_field search
  = Return (mk_metadata (Z.of_nat (List.length records))
              ((Z.of_nat (List.length records) + limit - 1) / limit)
              page limit).
Proof.
  intros Hl H. unfold get_all in H.
  apply bind_inv in H. destruct H as [q [Hq H]].
  apply bind_inv in H. destruct H as [rows [Hrows H]].
  injection H as <-.
  unfold get_pagination_metadata, count. rewrite Hq. cbn [bind].
  rewrite Hrows. cbn [bind]. rewrite length_map.
  unfold floordiv. destruct (limit =? 0) eqn:E; [lia | reflexivity].
Qed.

Lemma metadata_count_matches_get_all_witness :
  get_all two_rows "created_at" "asc" None None (Some 5) None None None
    = Return [to_dict widget]
  /\ get_pagination_metadata two_rows 1 10 "created_at" "asc"
       None None (Some 5) None None None
     = Return (mk_metadata 1 1 1 10).
Proof.
  split; [reflexivity |].
  apply (metadata_count_matches_get_all two_rows 1 10 "created_at" "asc"
           None None (Some 5) None None None [to_dict widget]);
    [lia | reflexivity].
Defined.

(** ** Order by any column *)

(** X7: On a working connection [get_all] without filters lists every stored
    row once, in descending order of the [sort_by] column when [order] is
    exactly "desc" and in ascending order for every other value of
    [order]. *)
Theorem get_all_sorted_by_column (db : Session) (sort_by order : string)
    (column : Column) :
  connection_error db = None ->
  getattr_column sort_by = Return column ->
  exists rows : list Row,
    get_all db sort_by order None None None None None None
      = Return (map to_dict rows)
    /\ Permutation rows (table db)
    /\ (order = "desc" -> descending column rows)
    /\ (order <> "desc" -> ascending column rows).
Proof.
  intros Hc Hcol.
  rewrite (get_all_unfiltered db sort_by order column Hc Hcol).
  eexists. split; [reflexivity |].
  split; [apply ordered_perm |].
  destruct (order =? "desc")%string eqn:E; simpl.
  - split; [intros _; apply sort_rows_descending |].
    apply String.eqb_eq in E. intros H. contradiction.
  - split; [| intros _; apply sort_rows_ascending].
    apply String.eqb_neq in E. intros H. contradiction.
Qed.

(** Sorting by [value] with [order = "DESC"] in capitals: ascending. *)
Lemma get_all_sorted_by_column_witness :
  get_all two_rows "value" "DESC" None None None None None None
    = Return [to_dict gadget; to_dict widget]
  /\ exists rows : list Row,
       get_all two_rows "value" "DESC" None None None None None None
         = Return (map to_dict rows)
       /\ Permutation rows (table two_rows)
       /\ ("DESC" = "desc" -> descending value_column rows)
       /\ ("DESC" <> "desc" -> ascending value_column rows).
Proof.
  split; [reflexivity |].
  apply (get_all_sorted_by_column two_rows "value" "DESC" value_column);
    reflexivity.
Defined.

(** ** Range filters *)






(** ** A search that is not complete *)

Lemma filtered_sorted_query_no_search
    (sort_by order : string) (min_date max_date : option string)
    (min_value max_value : option Z) (search_field search : option string) :
  truthy_str search_field = None \/ truthy_str search = None ->
  filtered_sorted_query sort_by order min_date max_date min_value max_value
    search_field search
  = filtered_sorted_query sort_by order min_date max_date min_value max_value
      None None.
Proof.
  intros H. unfold filtered_sorted_query.
  destruct H as [H | H]; rewrite H; [reflexivity |].
  destruct (truthy_str search_field); reflexivity.
Qed.

(** X9: A search field without a search term, and a search term without a search
    field, are set aside by the three list methods: the request is answered
    as the request with neither, and the field is not looked up, so a name
    that is no column raises nothing. An empty string counts as absent. *)
Theorem incomplete_search_ignored (db : Session) (page limit : Z)
    (sort_by order : string) (min_date max_date : option string)
    (min_value max_value : option Z) (search_field search : option string) :
  truthy_str search_field = None \/ truthy_str search = None ->
  get_all db sort_by order min_date max_date min_value max_value
    search_field search
  = get_all db sort_by order min_date max_date min_value max_value None None
  /\ get_paginated db page limit sort_by order min_date max_date
       min_value max_value search_field search
     = get_paginated db page limit sort_by order min_date max_date
         min_value max_value None None
  /\ get_pagination_metadata db page limit sort_by order min_date max_date
       min_value max_value search_field search
     = get_pagination_metadata db page limit sort_by order min_date max_date
         min_value max_value None None.
Proof.
  intros H.
  unfold get_all, get_paginated, get_pagination_metadata.
  rewrite (filtered_sorted_query_no_search _ _ _ _ _ _ _ _ H).
  repeat split.
Qed.

(** A search field that names no column, without a term. *)
Lemma incomplete_search_ignored_witness :
  get_all two_rows "created_at" "asc" None None None None (Some "price") None
  = Return [to_dict widget; to_dict gadget]
  /\ get_all two_rows "created_at" "asc" None None None None
       (Some "name") (Some "")
     = get_all two_rows "created_at" "asc" None None None None None None.
Proof.
  split; [reflexivity |].
  apply (incomplete_search_ignored two_rows 1 10 "created_at" "asc"
           None None None None (Some "name") (Some "")).
  right. reflexivity.
Defined.

(* ================================================================== *)
(** * Create, update and delete *)
(* ================================================================== *)

(** ** The dictionary of a row *)


(** ** What the three methods leave in the table *)

Lemma first_Return_connected (db : Session) (q : Query) (o : option Row) :
  first db q = Return o -> connection_error db = None.
Proof.
  unfold first, all. destruct (connection_error db); [discriminate | reflexivity].
Qed.



(** [create] returns exactly when the connection works and no row has the
    new identifier; the new row goes to the end of the table. *)
Lemma create_Return (db : Session) (uuid now : string) (kwargs : ExampleBase)
    (record : Dict) (db' : Session) :
  create db uuid now kwargs = Return (record, db') ->
  connection_error db = None
  /\ existsb (fun r => (id r =? uuid)%string) (table db) = false
  /\ record = to_dict (mk_row uuid now now (name_field kwargs)
                         (value_field kwargs) (description_field kwargs))
  /\ db' = mk_session
             (table db ++ [mk_row uuid now now (name_field kwargs)
                             (value_field kwargs) (description_field kwargs)])
             None.
Proof.
  unfold create, add_commit. simpl.
  destruct (connection_error db); [discriminate |].
  destruct (existsb _ (table db)); [discriminate |].
  simpl. intros H. injection H as <- <-. repeat split.
Qed.

Lemma set_fields_id (now : string) (kwargs : ExampleBase) (r : Row) :
  id (set_fields now kwargs r) = id r.
Proof. unfold set_fields. destruct (_ && _); reflexivity. Qed.

(** [update] returns exactly when the connection works; every row with the
    identifier has its fields set, the other rows stay. *)
Lemma update_Return (instance_id : string) (db : Session) (now : string)
    (kwargs : ExampleBase) (record : option Dict) (db' : Session) :
  update instance_id db now kwargs = Return (record, db') ->
  connection_error db = None
  /\ connection_error db' = None
  /\ table db'
     = map (fun x => if (id x =? instance_id)%string
                     then set_fields now kwargs x else x) (table db)
  /\ record
     = option_map (fun r => to_dict (set_fields now kwargs r))
         (find (fun r => (id r =? instance_id)%string) (table db)).
Proof.
  unfold update. intros H.
  apply bind_inv in H. destruct H as [o [Ho H]].
  pose proof (first_Return_connected _ _ _ Ho) as Hc.
  rewrite (first_filter _ _ Hc) in Ho. injection Ho as Ho.
  rewrite Ho. destruct o as [r |].
  - unfold commit in H. rewrite Hc in H. simpl in H.
    injection H as <- <-. repeat split. exact Hc.
  - injection H as <- <-. repeat split; try exact Hc.
    clear Hc. induction (table db) as [| a l IH]; [reflexivity |].
    simpl in Ho. simpl. destruct (id a =? instance_id)%string;
      [discriminate Ho |]. f_equal. exact (IH Ho).
Qed.

(** [delete] returns exactly when the connection works; the rows with the
    identifier go, the other rows stay. *)
Lemma delete_Return (instance_id : string) (db : Session)
    (existed : bool) (db' : Session) :
  delete instance_id db = Return (existed, db') ->
  connection_error db = None
  /\ connection_error db' = None
  /\ table db'
     = filter (fun x => negb (id x =? instance_id)%string) (table db).
Proof.
  unfold delete. intros H.
  apply bind_inv in H. destruct H as [o [Ho H]].
  pose proof (first_Return_connected _ _ _ Ho) as Hc.
  rewrite (first_filter _ _ Hc) in Ho. injection Ho as Ho.
  destruct o as [r |].
  - apply find_some in Ho. destruct Ho as [_ Hid].
    apply String.eqb_eq in Hid.
    unfold commit in H. rewrite Hc in H. simpl in H. rewrite Hid in H.
    injection H as <- <-. repeat split. exact Hc.
  - injection H as <- <-. repeat split; try exact Hc.
    clear Hc. induction (table db) as [| a l IH]; [reflexivity |].
    simpl in Ho. simpl. destruct (id a =? instance_id)%string;
      [discriminate Ho |]. simpl. f_equal. exact (IH Ho).
Qed.



Lemma find_other_id_filter (i other : string) (l : list Row) :
  other <> i ->
  find (fun r => (id r =? other)%string)
       (filter (fun x => negb (id x =? i)%string) l)
  = find (fun r => (id r =? other)%string) l.
Proof.
  intros Hne. induction l as [| a l IH]; simpl; [reflexivity |].
  destruct (id a =? i)%string eqn:E; simpl.
  - apply String.eqb_eq in E.
    destruct (id a =? other)%string eqn:E'; [| exact IH].
    apply String.eqb_eq in E'. congruence.
  - destruct (id a =? other)%string; [reflexivity | exact IH].
Qed.

(** ** Create, then look up *)



(** ** Update, then look up *)




(** ** Delete and the other records *)

(** X14: On a working connection [delete] removes the rows with the identifier
    and no other row: what [get_by_id] finds under any other identifier is
    what it found before. *)
Theorem delete_keeps_other_records (instance_id : string) (db : Session) :
  connection_error db = None ->
  exists (existed : bool) (db' : Session),
    delete instance_id db = Return (existed, db')
    /\ (forall r, In r (table db') <->
                  In r (table db) /\ id r <> instance_id)
    /\ forall other, other <> instance_id ->
         get_by_id other db' = get_by_id other db.
Proof.
  intros Hc.
  assert (H : exists existed db', delete instance_id db = Return (existed, db')).
  { unfold delete. rewrite (first_filter _ _ Hc).
    destruct (find _ (table db)); cbn [bind];
      [unfold commit; rewrite Hc | ]; eexists; eexists; reflexivity. }
  destruct H as [existed [db' H]].
  exists existed, db'. split; [exact H |].
  apply delete_Return in H. destruct H as [_ [Hc' Ht]].
  split.
  - intros r. rewrite Ht, filter_In, negb_true_iff, String.eqb_neq. tauto.
  - intros other Hne.
    rewrite (get_by_id_connected other db' Hc'),
      (get_by_id_connected other db Hc), Ht.
    rewrite (find_other_id_filter instance_id other _ Hne). reflexivity.
Qed.

Lemma delete_keeps_other_records_witness :
  exists (existed : bool) (db' : Session),
    delete (id widget) two_rows = Return (existed, db')
    /\ get_by_id (id gadget) db' = Return (Some (to_dict gadget)).
Proof.
  destruct (delete_keeps_other_records (id widget) two_rows eq_refl)
    as [existed [db' [H1 [_ H3]]]].
  exists existed, db'. split; [exact H1 |].
  rewrite (H3 (id gadget)); [reflexivity | discriminate].
Defined.

(** ** Identifiers stay unique *)

(** Taking rows away keeps the identifiers distinct. *)
Lemma unique_ids_filter (keep : Row -> bool) (rows : list Row) :
  NoDup (map id rows) -> NoDup (map id (filter keep rows)).
Proof.
  induction rows as [| a rows IH]; simpl; intros H; [exact H |].
  apply NoDup_cons_iff in H. destruct H as [Hnotin Hnd].
  destruct (keep a); simpl; [| exact (IH Hnd)].
  apply NoDup_cons_iff. split; [| exact (IH Hnd)].
  intros Hin. apply Hnotin.
  apply in_map_iff in Hin. destruct Hin as [x [Hx Hin]].
  apply filter_In in Hin. rewrite <- Hx. apply in_map. exact (proj1 Hin).
Qed.

Lemma map_id_update (i now : string) (kwargs : ExampleBase) (l : list Row) :
  map id (map (fun x => if (id x =? i)%string
                        then set_fields now kwargs x else x) l)
  = map id l.
Proof.
  rewrite map_map. apply map_ext. intros a.
  destruct (id a =? i)%string; [apply set_fields_id | reflexivity].
Qed.

(** X15: When no two stored rows have the same [id], none do after a request to
    any of the six routes that is answered without an exception. *)
Theorem ids_stay_unique (uuid now : string) (req : Request)
    (db db' : Session) (body : Body) :
  NoDup (map id (table db)) ->
  handler uuid now req db = Return (body, db') ->
  NoDup (map id (table db')).
Proof.
  intros Hnd H. destruct req; unfold handler in H;
    apply bind_inv in H; destruct H as [r [Hr H]]; injection H as _ <-.
  - exact Hnd.
  - exact Hnd.
  - exact Hnd.
  - unfold create_new_record in Hr.
    apply bind_inv in Hr. destruct Hr as [[record dbc] [Hcr Hr]].
    apply create_Return in Hcr. destruct Hcr as [_ [He [_ ->]]].
    destruct (falsy_dict record); [discriminate Hr |].
    injection Hr as <-. cbn [snd table].
    rewrite map_app. simpl.
    apply NoDup_app; [exact Hnd | repeat constructor; intros [] |].
    intros x Hx [<- | []].
    apply in_map_iff in Hx. destruct Hx as [a [Ha Hin]].
    assert (E : existsb (fun r => (id r =? id a)%string) (table db) = true).
    { apply existsb_exists. exists a. split; [exact Hin | apply String.eqb_refl]. }
    rewrite Ha in E. rewrite He in E. discriminate E.
  - unfold update_existing_record in Hr.
    apply bind_inv in Hr. destruct Hr as [o [_ Hr]].
    destruct o as [d |]; [| discriminate Hr].
    apply bind_inv in Hr. destruct Hr as [[record dbu] [Hup Hr]].
    apply update_Return in Hup. destruct Hup as [_ [_ [Ht _]]].
    destruct (falsy_optional_dict record); [discriminate Hr |].
    injection Hr as <-. cbn [snd]. rewrite Ht, map_id_update. exact Hnd.
  - unfold delete_existing_record in Hr.
    apply bind_inv in Hr. destruct Hr as [o [_ Hr]].
    destruct o as [d |]; [| discriminate Hr].
    apply bind_inv in Hr. destruct Hr as [[existed dbd] [Hdel Hr]].
    apply delete_Return in Hdel. destruct Hdel as [_ [_ Ht]].
    injection Hr as <-. cbn [snd]. rewrite Ht.
    apply unique_ids_filter. exact Hnd.
Qed.

(** A create request on the two sample rows. *)
Lemma ids_stay_unique_witness :
  NoDup (map id (table two_rows))
  /\ exists (body : Body) (db' : Session),
       handler "0b9f3c1e-0000-4000-8000-000000000009" "2024-02-01 09:00:00"
               (POST (mk_example "Sprocket" 4 "d")) two_rows
         = Return (body, db')
       /\ NoDup (map id (table db')).
Proof.
  assert (Hnd : NoDup (map id (table two_rows)))
    by (simpl; repeat constructor; simpl; intuition discriminate).
  split; [exact Hnd |].
  eexists. eexists. split; [reflexivity |].
  exact (ids_stay_unique "0b9f3c1e-0000-4000-8000-000000000009"
           "2024-02-01 09:00:00" (POST (mk_example "Sprocket" 4 "d"))
           two_rows _ _ Hnd eq_refl).
Defined.

(* ================================================================== *)
(** * The routes *)
(* ================================================================== *)

(** ** A stored record *)



(** ** The list route *)

(** X17: On a working connection the route [/all] is answered 200 with every
    stored row once, the earliest [created_at] first, and it leaves the
    session as it was. *)
Theorem list_route_lists_table (uuid now : string) (db : Session) :
  connection_error db = None ->
  exists rows : list Row,
    endpoint uuid now GET_all db
      = Return (Listing (mk_list_response "All ExampleModel records"
                           (map to_dict rows)), db)
    /\ Permutation rows (table db)
    /\ ascending created_at_column rows
    /\ status_of uuid now GET_all db = 200.
Proof.
  intros Hc.
  exists (sort_rows (asc_leb created_at_column) (table db)).
  assert (H : endpoint uuid now GET_all db
              = Return (Listing (mk_list_response "All ExampleModel records"
                  (map to_dict (sort_rows (asc_leb created_at_column) (table db)))),
                        db)).
  { unfold endpoint, handler, get_all_records.
    rewrite (get_all_unfiltered db "created_at" "asc" created_at_column Hc eq_refl).
    reflexivity. }
  split; [exact H |].
  split; [apply sort_rows_perm |].
  split; [apply sort_rows_ascending |].
  unfold status_of. rewrite H. reflexivity.
Qed.

Lemma list_route_lists_table_witness :
  exists rows : list Row,
    endpoint "u" "t" GET_all two_rows
      = Return (Listing (mk_list_response "All ExampleModel records"
                           (map to_dict rows)), two_rows)
    /\ Permutation rows (table two_rows)
    /\ ascending created_at_column rows
    /\ status_of "u" "t" GET_all two_rows = 200.
Proof. apply (list_route_lists_table "u" "t" two_rows). reflexivity. Defined.

(** ** The paginated route *)

Lemma In_firstn_In {A : Type} (n : nat) (l : list A) (x : A) :
  In x (firstn n l) -> In x l.
Proof.
  intros H. rewrite <- (firstn_skipn n l). apply in_or_app. left. exact H.
Qed.

Lemma In_skipn_In {A : Type} (n : nat) (l : list A) (x : A) :
  In x (skipn n l) -> In x l.
Proof.
  intros H. rewrite <- (firstn_skipn n l). apply in_or_app. right. exact H.
Qed.

(** X18: On a working connection, for a page number from 1, a positive page size
    and a query the engine accepts, the paginated response repeats the page
    number and the page size of the request, counts the rows that satisfy
    the filters, derives the page count from that count, and holds at most
    [limit] records, each the record of a stored row. *)
Theorem paginated_envelope (db : Session) (page_number limit : Z)
    (sort_by order : string) (min_date max_date : option string)
    (min_value max_value : option Z) (search_field search : option string)
    (query : Query) :
  connection_error db = None ->
  1 <= page_number -> 0 < limit ->
  filtered_sorted_query sort_by order min_date max_date min_value max_value
    search_field search = Return query ->
  untypable query = None ->
  exists r : APIBasePaginatedResponse,
    get_paginated_records db page_number limit sort_by order min_date max_date
      min_value max_value search_field search = Return r
    /\ paginated_message r = "All ExampleModel records"
    /\ page r = page_number
    /\ paginated_page_size r = limit
    /\ total_records r
       = Z.of_nat (List.length (filter (satisfies query) (table db)))
    /\ paginated_total_pages r = ceil_div (total_records r) limit
    /\ (List.length (paginated_data r) <= Z.to_nat limit)%nat
    /\ forall d, In d (paginated_data r) ->
         exists row, In row (table db) /\ d = to_dict row.
Proof.
  intros Hc Hp Hl Hq Hu.
  destruct (filtered_sorted_query_clauses _ _ _ _ _ _ _ _ _ Hq)
    as [Hlim [Hoff _]].
  eexists. split.
  - unfold get_paginated_records.
    rewrite (get_paginated_scan db page_number limit _ _ _ _ _ _ _ _ query
               Hc Hp ltac:(lia) Hq).
    cbn [bind]. unfold get_pagination_metadata. rewrite Hq. cbn [bind].
    rewrite (count_unsliced db query Hc Hu Hlim Hoff). cbn [bind].
    unfold floordiv. destruct (limit =? 0) eqn:E; [lia |].
    cbn [bind]. rewrite (floordiv_ceil _ limit Hl). reflexivity.
  - cbn. repeat split.
    + rewrite length_map. unfold page_slice. apply firstn_le_length.
    + intros d Hd. apply in_map_iff in Hd. destruct Hd as [row [Hrow Hin]].
      exists row. split; [| symmetry; exact Hrow].
      unfold page_slice in Hin.
      apply In_firstn_In in Hin. apply In_skipn_In in Hin. exact Hin.
Qed.

(** The scenario of one stored record, page 1 of size 1. *)
Lemma paginated_envelope_witness :
  exists r : APIBasePaginatedResponse,
    get_paginated_records one_row 1 1 "created_at" "asc"
      None None None None None None = Return r
    /\ paginated_total_pages r = 1 /\ total_records r = 1
    /\ paginated_page_size r = 1 /\ List.length (paginated_data r) = 1%nat.
Proof.
  destruct (paginated_envelope one_row 1 1 "created_at" "asc"
              None None None None None None
              (order_by query_cls (asc created_at_column))
              eq_refl ltac:(lia) ltac:(lia) eq_refl eq_refl)
    as [r [H1 _]].
  eexists. split; [reflexivity |]. repeat split.
Defined.

(** ** The earlier router *)

(** X21: In [old_base_router.py], on a working connection and for an identifier
    no row has, the exceptions the core functions raise are
    [HTTPException]s, which the wrapper lets through: GET is answered 204,
    PUT 500 and DELETE 404. *)
Theorem old_router_missing_record (uuid now : string) (db : Session)
    (record_id : string) (request : ExampleBase) :
  connection_error db = None ->
  find (fun x => (id x =? record_id)%string) (table db) = None ->
  OldBaseRouter.endpoint uuid now (OldBaseRouter.GET_by_id record_id) db
    = Raise (HTTPExc 204 "No ExampleModel Found With Given Id" [])
  /\ OldBaseRouter.endpoint uuid now (OldBaseRouter.PUT record_id request) db
     = Raise (HTTPExc 500 "Error occurred while updating ExampleModel." [])
  /\ OldBaseRouter.endpoint uuid now (OldBaseRouter.DELETE record_id) db
     = Raise (HTTPExc 404 "No ExampleModel found" [])
  /\ OldBaseRouter.status_of uuid now (OldBaseRouter.GET_by_id record_id) db
     = 204
  /\ OldBaseRouter.status_of uuid now (OldBaseRouter.PUT record_id request) db
     = 500
  /\ OldBaseRouter.status_of uuid now (OldBaseRouter.DELETE record_id) db
     = 404.
Proof.
  intros Hc Hf.
  unfold OldBaseRouter.status_of, OldBaseRouter.endpoint, OldBaseRouter.handler,
    OldBaseRouter.get_record_by_id, OldBaseRouter.update_existing_record,
    OldBaseRouter.delete_existing_record.
  rewrite (get_by_id_connected _ _ Hc), Hf.
  unfold update. rewrite (first_filter _ _ Hc), Hf.
  repeat split.
Qed.

Lemma old_router_missing_record_witness :
  OldBaseRouter.status_of "u" "t" (OldBaseRouter.GET_by_id "missing") one_row
    = 204
  /\ OldBaseRouter.status_of "u" "t"
       (OldBaseRouter.PUT "missing" (mk_example "n" 1 "d")) one_row = 500
  /\ OldBaseRouter.status_of "u" "t" (OldBaseRouter.DELETE "missing") one_row
     = 404.
Proof.
  destruct (old_router_missing_record "u" "t" one_row "missing"
              (mk_example "n" 1 "d") eq_refl eq_refl)
    as [_ [_ [_ [H4 [H5 H6]]]]].
  repeat split; assumption.
Defined.

(** ** A connection that is down *)

Lemma all_disconnected (db : Session) (q : Query) (msg : string) :
  connection_error db = Some msg -> all db q = Raise (SQLAlchemyExc msg).
Proof. intros H. unfold all. rewrite H. reflexivity. Qed.

(** X20: When every statement fails on the connection, each of the six routes
    answers 420 with the text of the failure, provided the column names of
    a paginated request are names of columns. *)
Theorem broken_connection_answers_420 (uuid now : string) (req : Request)
    (db : Session) (msg : string) :
  connection_error db = Some msg ->
  names_columns req = true ->
  endpoint uuid now req db
    = Raise (HTTPExc 420 ("Database connection error occurred: " ++ msg)
               [("X-Error", "Database Error")])
  /\ status_of uuid now req db = 420.
Proof.
  intros Hc Hn.
  assert (H : handler uuid now req db = Raise (SQLAlchemyExc msg)).
  { destruct req; unfold handler.
    - unfold get_all_records, get_all. cbn [filtered_sorted_query].
      unfold filtered_sorted_query. cbn.
      rewrite (all_disconnected _ _ _ Hc). reflexivity.
    - unfold names_columns in Hn.
      destruct (filtered_sorted_query sort_by order min_date max_date
                  min_value max_value search_field search) as [q |] eqn:Hq;
        [| discriminate Hn].
      unfold get_paginated_records, get_paginated. rewrite Hq. cbn [bind].
      rewrite (all_disconnected _ _ _ Hc). reflexivity.
    - unfold get_record_by_id, get_by_id, first.
      rewrite (all_disconnected _ _ _ Hc). reflexivity.
    - unfold create_new_record, create, add_commit. rewrite Hc. reflexivity.
    - unfold update_existing_record, get_by_id, first.
      rewrite (all_disconnected _ _ _ Hc). reflexivity.
    - unfold delete_existing_record, get_by_id, first.
      rewrite (all_disconnected _ _ _ Hc). reflexivity. }
  unfold status_of, endpoint. rewrite H. split; reflexivity.
Qed.

Lemma broken_connection_answers_420_witness :
  status_of "u" "t" GET_all disconnected = 420
  /\ status_of "u" "t" (DELETE (id widget)) disconnected = 420.
Proof.
  split.
  - apply (broken_connection_answers_420 "u" "t" GET_all disconnected
             "connection refused"); reflexivity.
  - apply (broken_connection_answers_420 "u" "t" (DELETE (id widget))
             disconnected "connection refused"); reflexivity.
Defined.

(** ** Pages and the table *)

Lemma firstn_next_page {A : Type} (a n : nat) (l : list A) :
  (firstn a l ++ firstn n (skipn a l))%list = firstn (a + n) l.
Proof.
  revert l. induction a as [| a IH]; intros l; simpl; [reflexivity |].
  destruct l as [| x l]; simpl.
  - rewrite firstn_nil. reflexivity.
  - f_equal. apply IH.
Qed.

Lemma pages_concat {A : Type} (n k : nat) (l : list A) :
  List.concat (map (fun p => firstn n (skipn ((p - 1) * n) l)) (seq 1 k))
  = firstn (k * n) l.
Proof.
  induction k as [| k IH]; [reflexivity |].
  rewrite seq_S, map_app, concat_app, IH. simpl.
  rewrite app_nil_r, Nat.sub_0_r, firstn_next_page.
  f_equal. lia.
Qed.

(** X19: On a working connection, for a positive page size and no filter, each
    of the first [k] pages is returned, and once [k] pages have room for the
    table, the records of those pages taken together are the records of the
    stored rows, each row once. *)
Theorem pages_cover_table (db : Session) (limit : Z) (sort_by order : string)
    (column : Column) (k : nat) :
  connection_error db = None ->
  0 < limit ->
  getattr_column sort_by = Return column ->
  (List.length (table db) <= k * Z.to_nat limit)%nat ->
  exists pages : list (list Dict),
    Forall2 (fun p records =>
               get_paginated db (Z.of_nat p) limit sort_by order
                 None None None None None None = Return records)
            (seq 1 k) pages
    /\ Permutation (List.concat pages) (map to_dict (table db)).
Proof.
  intros Hc Hl Hcol Hk.
  assert (Hq : exists q,
    filtered_sorted_query sort_by order None None None None None None = Return q).
  { unfold filtered_sorted_query. simpl. rewrite Hcol. simpl.
    destruct (order =? "desc")%string; eexists; reflexivity. }
  destruct Hq as [q Hq].
  exists (map (fun p => map to_dict (page_slice (Z.of_nat p) limit (table db)))
              (seq 1 k)).
  split.
  - assert (H : forall l : list nat, (forall p, In p l -> (1 <= p)%nat) ->
      Forall2 (fun p records =>
                 get_paginated db (Z.of_nat p) limit sort_by order
                   None None None None None None = Return records)
              l
              (map (fun p => map to_dict (page_slice (Z.of_nat p) limit (table db))) l)).
    { induction l as [| p l IH]; intros Hall; simpl; constructor.
      - apply (get_paginated_scan db (Z.of_nat p) limit _ _ _ _ _ _ _ _ q Hc);
          [| lia | exact Hq].
        specialize (Hall p (or_introl eq_refl)). lia.
      - apply IH. intros x Hx. apply Hall. right. exact Hx. }
    apply H. intros p Hp. apply in_seq in Hp. lia.
  - rewrite <- (map_map (fun p => page_slice (Z.of_nat p) limit (table db))
                        (map to_dict)).
    rewrite <- concat_map.
    assert (E : map (fun p => page_slice (Z.of_nat p) limit (table db)) (seq 1 k)
                = map (fun p => firstn (Z.to_nat limit)
                                  (skipn ((p - 1) * Z.to_nat limit) (table db)))
                      (seq 1 k)).
    { apply map_ext_in. intros p Hp. apply in_seq in Hp.
      unfold page_slice. f_equal. f_equal.
      rewrite Z2Nat.inj_mul by lia. f_equal. lia. }
    rewrite E, pages_concat, firstn_all2 by exact Hk.
    apply Permutation_refl.
Qed.

(** The two sample rows in two pages of one. *)
Lemma pages_cover_table_witness :
  exists pages : list (list Dict),
    Forall2 (fun p records =>
               get_paginated two_rows (Z.of_nat p) 1 "created_at" "asc"
                 None None None None None None = Return records)
            (seq 1 2) pages
    /\ Permutation (List.concat pages) (map to_dict (table two_rows)).
Proof.
  apply (pages_cover_table two_rows 1 "created_at" "asc" created_at_column 2);
    [reflexivity | lia | reflexivity | simpl; lia].
Defined.

(** ** The case of the search term *)

Lemma lower_ascii_fixed (c : ascii) :
  (65 <=? nat_of_ascii c)%nat && (nat_of_ascii c <=? 90)%nat = false ->
  lower_ascii c = c.
Proof. intros B. unfold lower_ascii. rewrite B. reflexivity. Qed.

Lemma lower_ascii_idempotent (c : ascii) :
  lower_ascii (lower_ascii c) = lower_ascii c.
Proof.
  destruct ((65 <=? nat_of_ascii c)%nat && (nat_of_ascii c <=? 90)%nat) eqn:B.
  - assert (E : lower_ascii c = ascii_of_nat (nat_of_ascii c + 32))
      by (unfold lower_ascii; rewrite B; reflexivity).
    rewrite E. apply lower_ascii_fixed.
    apply andb_true_iff in B. destruct B as [B1 B2].
    apply Nat.leb_le in B1, B2.
    rewrite nat_ascii_embedding by lia.
    apply andb_false_iff. right. apply Nat.leb_gt. lia.
  - rewrite (lower_ascii_fixed c B). apply lower_ascii_fixed. exact B.
Qed.

Lemma lower_idempotent (s : string) : lower (lower s) = lower s.
Proof.
  induction s as [| c s IH]; simpl; [reflexivity |].
  rewrite lower_ascii_idempotent, IH. reflexivity.
Qed.

Lemma ilike_lower_term (term s : string) :
  ilike ("%" ++ lower term ++ "%") s = ilike ("%" ++ term ++ "%") s.
Proof.
  unfold ilike. rewrite !lower_append, lower_idempotent. reflexivity.
Qed.

Lemma lower_empty (s : string) :
  (lower s =? "")%string = (s =? "")%string.
Proof. destruct s; reflexivity. Qed.

Lemma satisfies_added (q : Query) (f : Row -> bool) (o : Ordering) (r : Row) :
  satisfies (order_by (filter_ q f) o) r = satisfies q r && f r.
Proof.
  unfold satisfies. simpl. rewrite forallb_app. simpl.
  rewrite andb_true_r. reflexivity.
Qed.

(** Two queries with the same rows, order and slice give the same
    result. *)
Lemma all_ext (db : Session) (q1 q2 : Query) :
  (forall r, satisfies q1 r = satisfies q2 r) ->
  untypable q1 = untypable q2 ->
  ordering q1 = ordering q2 ->
  limit_clause q1 = limit_clause q2 ->
  offset_clause q1 = offset_clause q2 ->
  all db q1 = all db q2.
Proof.
  intros Hs Hu Ho Hl Hf. unfold all. rewrite Hu, Ho, Hl, Hf.
  rewrite (filter_ext _ _ Hs). reflexivity.
Qed.

(** The search filter the methods add for a term and for the term in lower
    case: the same on every row. *)
Lemma filter_ilike_lower_term (q : Query) (c : Column) (term : string)
    (o : Ordering) :
  (forall r,
     satisfies (order_by (filter_ilike q c ("%" ++ lower term ++ "%")) o) r
     = satisfies (order_by (filter_ilike q c ("%" ++ term ++ "%")) o) r)
  /\ untypable (filter_ilike q c ("%" ++ lower term ++ "%"))
     = untypable (filter_ilike q c ("%" ++ term ++ "%"))
  /\ limit_clause (filter_ilike q c ("%" ++ lower term ++ "%"))
     = limit_clause (filter_ilike q c ("%" ++ term ++ "%"))
  /\ offset_clause (filter_ilike q c ("%" ++ lower term ++ "%"))
     = offset_clause (filter_ilike q c ("%" ++ term ++ "%")).
Proof.
  destruct c; cbn [filter_ilike];
    (split; [intros r | repeat split]);
    try (rewrite !satisfies_added, ilike_lower_term; reflexivity);
    reflexivity.
Qed.

Lemma search_step_lower (q : Query) (search_field : option string)
    (term : string) (db : Session) (sort_by order : string) :
  let step (t : string) :=
    query <-
      match truthy_str search_field, truthy_str (Some t) with
      | Some field, Some term =>
          column <- getattr_column field ;;
          Return (filter_ilike q column ("%" ++ term ++ "%"))
      | _, _ => Return q
      end ;;
    column <- getattr_column sort_by ;;
    (if (order =? "desc")%string
     then Return (order_by query (desc column))
     else Return (order_by query (asc column))) in
  (query <- step (lower term) ;; all db query)
  = (query <- step term ;; all db query).
Proof.
  cbv zeta. unfold truthy_str at 2 4. rewrite lower_empty.
  destruct (truthy_str search_field) as [field |]; [| reflexivity].
  destruct (term =? "")%string; [reflexivity |].
  destruct (getattr_column field) as [c | e]; [| reflexivity].
  cbn [bind].
  destruct (getattr_column sort_by) as [sc | e]; [| reflexivity].
  cbn [bind].
  destruct (filter_ilike_lower_term q c term (desc sc)) as [Hd [Hu [Hl Hf]]].
  destruct (filter_ilike_lower_term q c term (asc sc)) as [Ha _].
  destruct (order =? "desc")%string; cbn [bind];
    apply all_ext; cbn [untypable ordering limit_clause offset_clause order_by];
    assumption || reflexivity.
Qed.

(** X10: [get_all] and the count of the metadata do not depend on the case of
    the letters of the search term, whatever the term holds. *)
Theorem search_term_case (db : Session) (page limit : Z)
    (sort_by order : string) (min_date max_date : option string)
    (min_value max_value : option Z) (search_field : option string)
    (term : string) :
  get_all db sort_by order min_date max_date min_value max_value
    search_field (Some (lower term))
  = get_all db sort_by order min_date max_date min_value max_value
      search_field (Some term)
  /\ get_pagination_metadata db page limit sort_by order min_date max_date
       min_value max_value search_field (Some (lower term))
     = get_pagination_metadata db page limit sort_by order min_date max_date
         min_value max_value search_field (Some term).
Proof.
  assert (H : forall t,
    (query <- filtered_sorted_query sort_by order min_date max_date
                min_value max_value search_field (Some t) ;; all db query)
    = (query <- filtered_sorted_query sort_by order min_date max_date
                  min_value max_value search_field (Some (lower t)) ;;
       all db query)).
  { intros t. unfold filtered_sorted_query. cbv zeta.
    symmetry. apply (search_step_lower _ search_field t db sort_by order). }
  split.
  - unfold get_all.
    destruct (filtered_sorted_query sort_by order min_date max_date
                min_value max_value search_field (Some term)) as [q1 |] eqn:E1;
    destruct (filtered_sorted_query sort_by order min_date max_date
                min_value max_value search_field (Some (lower term)))
      as [q2 |] eqn:E2;
    pose proof (H term) as Ht; rewrite E1, E2 in Ht; cbn [bind] in Ht |- *;
    first [ injection Ht as -> | rewrite Ht | rewrite <- Ht ]; reflexivity.
  - unfold get_pagination_metadata, count.
    destruct (filtered_sorted_query sort_by order min_date max_date
                min_value max_value search_field (Some term)) as [q1 |] eqn:E1;
    destruct (filtered_sorted_query sort_by order min_date max_date
                min_value max_value search_field (Some (lower term)))
      as [q2 |] eqn:E2;
    pose proof (H term) as Ht; rewrite E1, E2 in Ht; cbn [bind] in Ht |- *;
    first [ injection Ht as -> | rewrite Ht | rewrite <- Ht ]; reflexivity.
Qed.
